(** * Energy Data Analysis Toolkit: a shallow embedding of [energy_toolkit.py]

    The analytical core of the toolkit (record validation, aggregation,
    time-series analysis, log classification) is rendered as Rocq functions
    and its specification is checked against them.

    Python values are modelled as the interpreter has them: [float] is the
    IEEE 754 binary64 type ([PrimFloat.float]), [int] is [Z], [str] is
    [string], a [dict] is a finite map ([gmap]), a [list] is a [list].
    Exceptions are results of an error monad, so that [try]/[except] and the
    propagation of an uncaught exception are both visible in the model.

    A production record is a dict from field names to strings, a row of the
    CSV file with the fields it has; a log is a list of text lines; a series
    is a list of floats. The functions of the standard library the toolkit
    calls ([float], [sum], [statistics.mean], [statistics.stdev],
    [str.upper], [str.strip], [re.search]) are parameters of the model, and
    module [Reference] gives the instances used to run it.

    The report generator is modelled on top of the analyzers; the text of
    the clock and the formatting of a float with two decimals are parameters
    as well. The loaders ([load_data], [load_logs]) only read files and are
    left out: the analyzers start from the records and the lines. *)

From Stdlib Require Import ZArith List String Ascii Bool Lia Permutation Sorted.
From Stdlib Require Import Floats.
From Stdlib Require Import DecimalString.
From stdpp Require Import gmap strings sorting.

Local Open Scope string_scope.
Local Open Scope list_scope.
Local Open Scope Z_scope.

(** ** The Python runtime the toolkit relies on *)

Module Py.

(** The exception classes the toolkit's calls can raise. [PatternError] is
    [re.error] (named [re.PatternError] since Python 3.13). [OverflowError],
    [AttributeError] and [RecursionError] come out of the [statistics] and
    [re] modules on the inputs they cannot handle. *)
Inductive exn : Set :=
| ValueError
| KeyError
| ZeroDivisionError
| StatisticsError
| PatternError
| OverflowError
| AttributeError
| RecursionError.

Definition exn_eqb (a b : exn) : bool :=
  match a, b with
  | ValueError, ValueError
  | KeyError, KeyError
  | ZeroDivisionError, ZeroDivisionError
  | StatisticsError, StatisticsError
  | PatternError, PatternError
  | OverflowError, OverflowError
  | AttributeError, AttributeError
  | RecursionError, RecursionError => true
  | _, _ => false
  end.

(** A computation either raises or returns. *)
Definition M (A : Type) : Type := (exn + A)%type.

Definition raise {A : Type} (e : exn) : M A := inl e.

#[export] Instance M_ret : MRet M := fun A a => inr a.
#[export] Instance M_bind : MBind M :=
  fun A B k m => match m with inl e => inl e | inr a => k a end.

(** [try: body except cls: handler] *)
Definition try_except {A : Type} (body : M A) (cls : exn) (handler : M A) : M A :=
  match body with
  | inl e => if exn_eqb e cls then handler else inl e
  | inr a => inr a
  end.

(** A [for] loop that threads the loop-carried state and stops at the first
    uncaught exception. *)
Fixpoint for_each {A S : Type} (body : S -> A -> M S) (s : S) (l : list A) : M S :=
  match l with
  | [] => mret s
  | x :: l' => s' ← body s x; for_each body s' l'
  end.

(** A list comprehension whose element expression may raise. *)
Fixpoint comprehension {A B : Type} (f : A -> M B) (l : list A) : M (list B) :=
  match l with
  | [] => mret []
  | x :: l' => y ← f x; ys ← comprehension f l'; mret (y :: ys)
  end.

(** [len], [enumerate], [range] and slicing, with Python's integer indices. *)
Definition len {A : Type} (l : list A) : Z := Z.of_nat (length l).

Fixpoint enumerate_from {A : Type} (i : Z) (l : list A) : list (Z * A) :=
  match l with
  | [] => []
  | x :: l' => (i, x) :: enumerate_from (i + 1) l'
  end.

Definition enumerate {A : Type} (l : list A) : list (Z * A) := enumerate_from 0 l.

Definition range (n : Z) : list Z := map Z.of_nat (seq 0 (Z.to_nat n)).

(** A slice bound is resolved as CPython does: a negative bound counts from
    the end, and the result is clamped to [0, len]. *)
Definition clamp_index (n i : Z) : Z :=
  if i <? 0 then Z.max (i + n) 0 else Z.min i n.

Definition slice {A : Type} (l : list A) (start stop : option Z) : list A :=
  let n := len l in
  let lo := match start with Some i => clamp_index n i | None => 0 end in
  let hi := match stop with Some i => clamp_index n i | None => n end in
  firstn (Z.to_nat (hi - lo)) (skipn (Z.to_nat lo) l).

(** [float(k)] on an [int] (round to nearest even). *)
Definition float_of_int (k : Z) : float :=
  SF2Prim (binary_normalize prec emax k 0 false).

(** Python's [/] on floats raises on a zero divisor instead of producing an
    infinity or a NaN. *)
Definition truediv (a b : float) : M float :=
  if (b =? 0)%float then raise ZeroDivisionError else mret (a / b)%float.

(** [a / k] with an [int] divisor: [k] is converted to a float first. Only
    the integer [0] converts to a zero float, so the test is made on [k]. *)
Definition truediv_int (a : float) (k : Z) : M float :=
  if k =? 0 then raise ZeroDivisionError else mret (a / float_of_int k)%float.

(** [statistics.mean] raises on an empty sample and returns a float on
    every other sample of floats: [mean_of] is that float.
    [statistics.stdev] raises on fewer than two points, and on a longer
    sample it returns a float or raises in its turn ([OverflowError] when the
    deviation is beyond the range of a float, an exception on a sample that
    holds an infinity or a NaN): [stdev_of] is that outcome. *)
Definition statistics_mean (mean_of : list float -> float) (data : list float) : M float :=
  if len data <? 1 then raise StatisticsError else mret (mean_of data).

Definition statistics_stdev (stdev_of : list float -> M float) (data : list float) : M float :=
  if len data <? 2 then raise StatisticsError else stdev_of data.

(** [sorted(l, key=key)] compares keys with [<] only. The run is built by
    inserting each element after the elements that are not greater than it,
    which is what every stable sort returns whenever [<] orders the keys (no
    NaN among them; see [SortFacts.sorted_reverse_unique]). With
    [reverse=True] CPython reverses the list, sorts it ascending and reverses
    the result, so that ties keep their input order. *)
Fixpoint insort {A : Type} (key : A -> float) (x : A) (l : list A) : list A :=
  match l with
  | [] => [x]
  | y :: l' => if (key x <? key y)%float then x :: y :: l' else y :: insort key x l'
  end.

Definition list_sort {A : Type} (key : A -> float) (l : list A) : list A :=
  fold_left (fun run x => insort key x run) l [].

Definition sorted {A : Type} (key : A -> float) (reverse : bool) (l : list A) : list A :=
  if reverse then rev (list_sort key (rev l)) else list_sort key l.

(** [needle in hay] on strings. *)
Fixpoint contains (needle hay : string) : bool :=
  if String.prefix needle hay then true
  else match hay with
       | EmptyString => false
       | String _ hay' => contains needle hay'
       end.

(** [d[k]], [k in d] and [d.get(k, default)] on a dict with string keys. *)
Definition getitem {V : Type} (d : gmap string V) (k : string) : M V :=
  match d !! k with
  | Some v => mret v
  | None => raise KeyError
  end.

Definition has_key {V : Type} (d : gmap string V) (k : string) : bool :=
  match d !! k with Some _ => true | None => false end.

Definition dict_get {V D : Type} (d : gmap string V) (k : string) (default : D) : V + D :=
  match d !! k with
  | Some v => inl v
  | None => inr default
  end.

End Py.

Import Py.

(** ** ProductionDataProcessor *)

Module ProductionDataProcessor.

(** The payload of the ['value'] entry of a validation error: the parsed
    float or the raw field. *)
Inductive offending_value : Type :=
| VFloat (f : float)
| VStr (s : string).

(** The dict [validate_data] appends: [{'row': .., 'error': .., 'value': ..}]. *)
Record validation_error : Type := ValidationError {
  row : Z;
  error : string;
  value : offending_value
}.

(** The dict [get_top_days] builds: [{'date': .., 'production': ..}]. *)
Record ranked_day : Type := RankedDay {
  date : string;
  production : float
}.

Section Processor.

(** [float(s)] on a [str]: [None] stands for the [ValueError] it raises on
    text that is not a float literal. [mean_of] is [statistics.mean]. *)
Variable float_of_str : string -> option float.
Variable mean_of : list float -> float.

(** [float(x)] where [x] is a field of the row or the integer default. *)
Definition py_float (x : string + Z) : M float :=
  match x with
  | inl s => match float_of_str s with
             | Some f => mret f
             | None => raise ValueError
             end
  | inr k => mret (float_of_int k)
  end.

Definition validate_data (data : list (gmap string string)) : M (list validation_error) :=
  for_each
    (fun errors '(i, r) =>
       if has_key r "production" then
         try_except
           (s ← getitem r "production";
            prod ← py_float (inl s);
            if (prod <? 0)%float
            then mret (errors ++ [ValidationError (i + 1) "Negative production value" (VFloat prod)])
            else mret errors)
           ValueError
           (s ← getitem r "production";
            mret (errors ++ [ValidationError (i + 1) "Invalid production value" (VStr s)]))
       else mret errors)
    [] (enumerate data).

Definition calculate_daily_average (data : list (gmap string string)) : M float :=
  productions ←
    for_each
      (fun productions r =>
         try_except
           (p ← py_float (dict_get r "production" 0);
            mret (productions ++ [p]))
           ValueError
           (mret productions))
      [] data;
  match productions with
  | [] => mret 0%float
  | _ :: _ => statistics_mean mean_of productions
  end.

Definition get_top_days (data : list (gmap string string)) (n : Z) : M (list ranked_day) :=
  valid_data ←
    for_each
      (fun valid_data r =>
         try_except
           (prod ← py_float (dict_get r "production" 0);
            let d := match dict_get r "date" "Unknown" with inl s => s | inr s => s end in
            mret (valid_data ++ [RankedDay d prod]))
           ValueError
           (mret valid_data))
      [] data;
  let sorted_data := sorted production true valid_data in
  mret (slice sorted_data None (Some n)).

(** The default of the parameter [n]. *)
Definition get_top_days_default (data : list (gmap string string)) : M (list ranked_day) :=
  get_top_days data 5.

End Processor.

End ProductionDataProcessor.

(** ** LogFileAnalyzer *)

Module LogFileAnalyzer.

Section Analyzer.

(** [str.upper], [str.strip] and the [re] module. [re_compile] is the
    outcome of compiling the pattern, which [re.search] does first: the
    compiled pattern, or the exception raised, [PatternError] for a pattern
    that is not well formed, [OverflowError] for a repetition count that is
    too large, [RecursionError] for a pattern nested too deep. [re_match r s]
    tells whether the compiled pattern, with [re.IGNORECASE], is found
    somewhere in [s]. *)
Variable upper : string -> string.
Variable strip : string -> string.
Variable regex : Type.
Variable re_compile : string -> M regex.
Variable re_match : regex -> string -> bool.

(** [re.search(pattern, s, re.IGNORECASE)] tested for truth. *)
Definition re_search (pattern s : string) : M bool :=
  r ← re_compile pattern; mret (re_match r s).

(** [counts[k] += 1] on a [defaultdict(int)]. *)
Definition increment (counts : gmap string Z) (k : string) : gmap string Z :=
  <[k := default 0 (counts !! k) + 1]> counts.

Definition count_by_level (logs : list string) : gmap string Z :=
  fold_left
    (fun counts log =>
       let log_upper := upper log in
       if contains "ERROR" log_upper then increment counts "ERROR"
       else if contains "WARNING" log_upper then increment counts "WARNING"
       else if contains "INFO" log_upper then increment counts "INFO"
       else counts)
    logs ∅.

Definition extract_errors (logs : list string) : list string :=
  List.map strip (List.filter (fun log => contains "ERROR" (upper log)) logs).

Definition find_pattern (logs : list string) (pattern : string) : M (list (Z * string)) :=
  for_each
    (fun (matches : list (Z * string)) '(i, log) =>
       found ← re_search pattern log;
       if found : bool then mret (matches ++ [(i + 1, strip log)])
       else mret matches)
    [] (enumerate logs).

End Analyzer.

End LogFileAnalyzer.

(** ** TimeSeriesAnalyzer *)

Module TimeSeriesAnalyzer.

Section Analyzer.

(** The library functions the analyzer calls. [builtin_sum] is [sum] on a
    list of floats; [mean_of] is the value [statistics.mean] returns on a
    sample that is not empty; [stdev_of] is what [statistics.stdev] does on
    a sample of two or more points, a value or an exception. *)
Variable builtin_sum : list float -> float.
Variable mean_of : list float -> float.
Variable stdev_of : list float -> M float.

Definition moving_average (data : list float) (window : Z) : M (list float) :=
  if len data <? window then mret data
  else
    comprehension
      (fun i => truediv_int (builtin_sum (slice data (Some i) (Some (i + window))))
                            window)
      (range (len data - window + 1)).

Definition detect_anomalies (data : list float) (threshold : float) : M (list Z) :=
  if len data <? 2 then mret []
  else
    mean ← statistics_mean mean_of data;
    stdev ← statistics_stdev stdev_of data;
    for_each
      (fun anomalies '(i, val) =>
         z_score ← (if (0 <? stdev)%float
                    then q ← truediv (val - mean)%float stdev; mret (abs q)
                    else mret 0%float);
         if (threshold <? z_score)%float
         then mret (anomalies ++ [i])
         else mret anomalies)
      [] (enumerate data).

Definition calculate_trend (data : list float) : M string :=
  if len data <? 2 then mret "insufficient_data"
  else
    let mid := len data / 2 in
    avg_first ← statistics_mean mean_of (slice data None (Some mid));
    avg_second ← statistics_mean mean_of (slice data (Some mid) None);
    diff_percent ← (if (0 <? avg_first)%float
                    then q ← truediv (avg_second - avg_first)%float avg_first;
                         mret (q * 100)%float
                    else mret 0%float);
    if (5 <? diff_percent)%float then mret "increasing"
    else if (diff_percent <? -5)%float then mret "decreasing"
    else mret "stable".

End Analyzer.

End TimeSeriesAnalyzer.

(** ** The library functions on ASCII text and finite floats

    The toolkit is checked against any implementation of the library
    functions it calls. The definitions of this module are the instances
    used to run it on concrete data. *)

Module Reference.

(** *** Text *)

Definition code (c : ascii) : Z := Z.of_nat (nat_of_ascii c).

(** [str.isspace] on an ASCII character. *)
Definition is_space (c : ascii) : bool :=
  let n := code c in
  ((9 <=? n) && (n <=? 13)) || ((28 <=? n) && (n <=? 32)).

Definition is_digit (c : ascii) : bool :=
  let n := code c in (48 <=? n) && (n <=? 57).

Definition upper_char (c : ascii) : ascii :=
  let n := code c in
  if (97 <=? n) && (n <=? 122) then ascii_of_nat (Z.to_nat (n - 32)) else c.

Definition lower_char (c : ascii) : ascii :=
  let n := code c in
  if (65 <=? n) && (n <=? 90) then ascii_of_nat (Z.to_nat (n + 32)) else c.

(** [str.upper] on ASCII text. *)
Fixpoint upper (s : string) : string :=
  match s with
  | EmptyString => EmptyString
  | String c s' => String (upper_char c) (upper s')
  end.

Fixpoint lstrip (s : list ascii) : list ascii :=
  match s with
  | c :: s' => if is_space c then lstrip s' else s
  | [] => []
  end.

Definition strip_chars (s : list ascii) : list ascii :=
  rev (lstrip (rev (lstrip s))).

(** [str.strip] on ASCII text. *)
Definition strip (s : string) : string :=
  string_of_list_ascii (strip_chars (list_ascii_of_string s)).

(** *** [float] on ASCII text

    The literal grammar of the language reference: optional sign, then
    [inf], [infinity] or [nan] in any case, or a decimal number with an
    optional fraction and exponent, whose digit groups may be separated by
    single underscores; surrounding whitespace is ignored. The value is the
    binary64 float nearest to the decimal number. *)

(** A digit part: the integer read so far, the number of digits read, and
    the text that follows. *)
Fixpoint digitpart (s : list ascii) (value count : Z) : Z * Z * list ascii :=
  match s with
  | c :: s' =>
      if is_digit c then digitpart s' (10 * value + (code c - 48)) (count + 1)
      else if Ascii.eqb c "_" && (0 <? count) then
        match s' with
        | c' :: s'' =>
            if is_digit c'
            then digitpart s'' (10 * value + (code c' - 48)) (count + 1)
            else (value, count, s)
        | [] => (value, count, s)
        end
      else (value, count, s)
  | [] => (value, count, s)
  end.

Definition sign_of (s : list ascii) : bool * list ascii :=
  match s with
  | c :: s' =>
      if Ascii.eqb c "-" then (true, s')
      else if Ascii.eqb c "+" then (false, s')
      else (false, s)
  | [] => (false, s)
  end.

(** The float nearest to [num / den], for [den > 0]. *)
Definition float_of_ratio (num den : Z) : float :=
  match num with
  | Z0 => 0%float
  | Zpos n => SF2Prim (SFdiv prec emax (S754_finite false n 0)
                                       (S754_finite false (Z.to_pos den) 0))
  | Zneg n => SF2Prim (SFdiv prec emax (S754_finite true n 0)
                                       (S754_finite false (Z.to_pos den) 0))
  end.

(** The float nearest to [(-1)^neg * m * 10^e]. *)
Definition decimal_float (neg : bool) (m e : Z) : float :=
  if m =? 0 then (if neg then (-0)%float else 0%float)
  else
    let f := if 0 <=? e
             then SF2Prim (binary_normalize prec emax (m * 10 ^ e) 0 false)
             else float_of_ratio m (10 ^ (- e)) in
    if neg then (- f)%float else f.

Definition exponent_of (s : list ascii) : option (Z * list ascii) :=
  match s with
  | c :: s' =>
      if Ascii.eqb (lower_char c) "e" then
        let '(neg, s1) := sign_of s' in
        let '(v, n, rest) := digitpart s1 0 0 in
        if n =? 0 then None else Some (if neg then - v else v, rest)
      else Some (0, s)
  | [] => Some (0, s)
  end.

Definition float_of_str (s : string) : option float :=
  let '(neg, body) := sign_of (strip_chars (list_ascii_of_string s)) in
  let word := string_of_list_ascii (map lower_char body) in
  if String.eqb word "inf" || String.eqb word "infinity"
  then Some (if neg then neg_infinity else infinity)
  else if String.eqb word "nan" then Some nan
  else
    let '(int_value, int_count, s1) := digitpart body 0 0 in
    let '(value, frac_count, s2) :=
      match s1 with
      | c :: s1' => if Ascii.eqb c "." then digitpart s1' int_value 0
                    else (int_value, 0, s1)
      | [] => (int_value, 0, s1)
      end in
    if int_count + frac_count =? 0 then None
    else
      match exponent_of s2 with
      | Some (e, []) => Some (decimal_float neg value (e - frac_count))
      | _ => None
      end.

(** *** [sum] and the [statistics] module

    [sum] adds from left to right, starting from [0]. [statistics.mean] and
    [statistics.stdev] work on the exact rational values of the floats and
    round once at the end; the functions below follow CPython 3.11.
    [stdev] raises [OverflowError] when the deviation of a finite sample is
    too large for a float, and [AttributeError] on a sample that holds an
    infinity or a NaN. *)

Definition builtin_sum (l : list float) : float :=
  fold_left (fun acc x => (acc + x)%float) l 0%float.

(** [float.as_integer_ratio], as a numerator and a positive denominator
    (not in lowest terms); [None] on an infinity or a NaN. *)
Definition exact_ratio (f : float) : option (Z * Z) :=
  match Prim2SF f with
  | S754_zero _ => Some (0, 1)
  | S754_finite s m e =>
      let n := if s then Zneg m else Zpos m in
      Some (if 0 <=? e then (n * 2 ^ e, 1) else (n, 2 ^ (- e)))
  | _ => None
  end.

(** The exact sum of the sample and of its squares, over one denominator. *)
Fixpoint exact_sums (l : list float) : option (Z * Z * Z) :=
  match l with
  | [] => Some (0, 0, 1)
  | x :: l' =>
      match exact_ratio x, exact_sums l' with
      | Some (n, d), Some (sx, sxx, den) =>
          (* sx / den + n / d  and  sxx / den^2 + n^2 / d^2 *)
          Some (sx * d + n * den, sxx * d * d + n * n * den * den, den * d)
      | _, _ => None
      end
  end.

(** When the sample holds an infinity or a NaN, only those are added. *)
Definition sum_not_finite (l : list float) : float :=
  fold_left
    (fun acc x => match exact_ratio x with
                  | None => (acc + x)%float
                  | Some _ => acc
                  end)
    l 0%float.

Definition mean (l : list float) : float :=
  match exact_sums l with
  | Some (sx, _, den) => float_of_ratio sx (den * Z.of_nat (List.length l))
  | None => (sum_not_finite l / float_of_int (Z.of_nat (List.length l)))%float
  end.

Definition bit_length (n : Z) : Z := if n =? 0 then 0 else Z.log2 n + 1.

(** [_integer_sqrt_of_frac_rto]: the integer square root of [n / m],
    with the last bit set when the root is inexact. *)
Definition integer_sqrt_of_frac_rto (n m : Z) : Z :=
  let a := Z.sqrt (n / m) in
  Z.lor a (if a * a * m =? n then 0 else 1).

(** [_float_sqrt_of_frac]: the float nearest to the square root of [n / m],
    for [n / m] in lowest terms. *)
Definition float_sqrt_of_frac (n m : Z) : float :=
  let q := (bit_length n - bit_length m - 109) / 2 in
  if 0 <=? q
  then float_of_ratio (Z.shiftl (integer_sqrt_of_frac_rto n (Z.shiftl m (2 * q))) q) 1
  else float_of_ratio (integer_sqrt_of_frac_rto (Z.shiftl n (- 2 * q)) m)
                      (Z.shiftl 1 (- q)).

Definition stdev (l : list float) : M float :=
  if Z.of_nat (List.length l) <? 2 then raise StatisticsError else
  match exact_sums l with
  | Some (sx, sxx, den) =>
      let count := Z.of_nat (List.length l) in
      (* (count * sxx/den^2 - (sx/den)^2) / count / (count - 1) *)
      let num := count * sxx - sx * sx in
      let dnm := den * den * count * (count - 1) in
      let g := Z.gcd num dnm in
      let root := float_sqrt_of_frac (num / g) (dnm / g) in
      (* the last division overflows when the root is beyond the floats *)
      if is_infinity root then raise OverflowError else mret root
  | None => raise AttributeError
  end.

(** *** [re] on literal patterns

    A pattern without a special character is a valid pattern that matches
    itself, in any case under [re.IGNORECASE]; the pattern [c{k}], for an
    ordinary character [c], matches [k] times [c], and is refused with
    [OverflowError] when [k] is [MAXREPEAT] or more. This instance knows
    these patterns and takes every other text as not well formed, as [re]
    does for ["("]. *)

Definition is_special (c : ascii) : bool :=
  existsb (Ascii.eqb c) (list_ascii_of_string ".^$*+?{}[]\|()").

Definition maxrepeat : Z := 4294967295.

(** The number a run of digits writes, the number of digits, and the rest. *)
Fixpoint digits (s : list ascii) (value count : Z) : Z * Z * list ascii :=
  match s with
  | c :: s' =>
      if is_digit c then digits s' (10 * value + (code c - 48)) (count + 1)
      else (value, count, s)
  | [] => (value, count, s)
  end.

(** The character and the count of a pattern [c{k}]. *)
Definition repetition (pattern : string) : option (ascii * Z) :=
  match list_ascii_of_string pattern with
  | c :: brace :: rest =>
      if negb (is_special c) && Ascii.eqb brace "{" then
        let '(k, n, tail) := digits rest 0 0 in
        match tail with
        | [close] => if Ascii.eqb close "}" && (0 <? n) then Some (c, k) else None
        | _ => None
        end
      else None
  | _ => None
  end.

Definition re_compile (pattern : string) : M string :=
  if existsb is_special (list_ascii_of_string pattern) then
    match repetition pattern with
    | Some (c, k) =>
        if maxrepeat <=? k then raise OverflowError
        else mret (upper (String.concat "" (repeat (String c "") (Z.to_nat k))))
    | None => raise PatternError
    end
  else mret (upper pattern).

Definition re_match (r s : string) : bool := contains r (upper s).

End Reference.

(** ** The vocabulary of the specification *)

Module Spec.

Import ProductionDataProcessor.

Section Ordering.

Context {A : Type} (key : A -> float).

(** No key is a NaN, so that [<] orders the keys. *)
Definition no_nan (l : list A) : Prop :=
  Forall (fun a => is_nan (key a) = false) l.

Definition ascending : list A -> Prop :=
  StronglySorted (fun a b => (key a <=? key b)%float = true).

Definition descending : list A -> Prop :=
  StronglySorted (fun a b => (key b <=? key a)%float = true).

(** The elements whose key equals [v], in list order. A rearrangement is
    stable when it leaves [ties v] unchanged for every [v]. *)
Definition ties (v : float) (l : list A) : list A :=
  List.filter (fun a => (key a =? v)%float) l.

End Ordering.

(** The two kinds of validation error and the message each is reported
    with. *)
Inductive error_kind : Set :=
| NegativeValue
| MalformedValue.

Definition message (k : error_kind) : string :=
  match k with
  | NegativeValue => "Negative production value"
  | MalformedValue => "Invalid production value"
  end.

Section Records.

Variable float_of_str : string -> option float.

(** What the validator reports for the record at 0-based position [i]. *)
Definition reports (i : Z) (r : gmap string string) : list validation_error :=
  match r !! "production" with
  | None => []
  | Some s =>
      match float_of_str s with
      | None => [ValidationError (i + 1) (message MalformedValue) (VStr s)]
      | Some p =>
          if (p <? 0)%float
          then [ValidationError (i + 1) (message NegativeValue) (VFloat p)]
          else []
      end
  end.

(** The production the aggregator reads from a record: a missing field
    counts as [0], an unparsable one gives nothing. *)
Definition parsed_production (r : gmap string string) : option float :=
  match r !! "production" with
  | Some s => float_of_str s
  | None => Some 0%float
  end.

(** The ranked day a record gives, if its production parses. *)
Definition ranked (r : gmap string string) : option ranked_day :=
  match parsed_production r with
  | Some p => Some (RankedDay (default "Unknown" (r !! "date")) p)
  | None => None
  end.

End Records.

(** The severity tokens, in priority order. *)
Definition severities : list string := ["ERROR"; "WARNING"; "INFO"].

Section Logs.

Variable upper : string -> string.

(** The first token, in priority order, found in the upper-cased line. *)
Definition severity (log : string) : option string :=
  List.find (fun token => contains token (upper log)) severities.

(** The number of lines of severity [k]. *)
Definition observed (k : string) (logs : list string) : Z :=
  len (List.filter (fun log => bool_decide (severity log = Some k)) logs).

(** Counting one line: its bucket, if it has one, grows by one. *)
Definition count_line (counts : gmap string Z) (log : string) : gmap string Z :=
  match severity log with
  | Some k => LogFileAnalyzer.increment counts k
  | None => counts
  end.

End Logs.

(** What a pattern search reports for the line at 0-based position [i]. *)
Definition hit (strip : string -> string) (matched : string -> bool)
    (i : Z) (log : string) : list (Z * string) :=
  if matched log then [(i + 1, strip log)] else [].

(** The mean of a window, with the sum the interpreter computes. *)
Definition arithmetic_mean (sum : list float -> float) (w : list float) : float :=
  (sum w / float_of_int (len w))%float.

Definition z_score (mean stdev v : float) : float :=
  if (0 <? stdev)%float then (abs (v - mean) / stdev)%float else 0%float.

Definition percent_change (mean1 mean2 : float) : float :=
  if (0 <? mean1)%float then ((mean2 - mean1) / mean1 * 100)%float else 0%float.

Definition trend_of (percent : float) : string :=
  if (5 <? percent)%float then "increasing"
  else if (percent <? -5)%float then "decreasing"
  else "stable".

End Spec.

(** ** ReportGenerator *)

Module ReportGenerator.

Import ProductionDataProcessor LogFileAnalyzer.

(** The line separator of ["\n".join(report)]. *)
Definition newline : string := String (ascii_of_nat 10) EmptyString.

(** [s * n] on a string. *)
Definition str_mul (s : string) (n : Z) : string :=
  String.concat "" (repeat s (Z.to_nat n)).

(** An [int] inside an f-string: its decimal digits. *)
Definition str_of_int (k : Z) : string := NilZero.string_of_int (Z.to_int k).

(** [counts[k] += 1] on a [defaultdict(int)], with the insertion order a
    dict keeps: a key that is present is updated in place, a new key goes
    last. *)
Fixpoint increment_items (counts : list (string * Z)) (k : string) : list (string * Z) :=
  match counts with
  | [] => [(k, 0 + 1)]
  | (k', c) :: rest =>
      if String.eqb k' k then (k', c + 1) :: rest
      else (k', c) :: increment_items rest k
  end.

Section Reports.

(** The library functions of the analyzers, the text [f"{x:.2f}"] gives for
    a float, and the text of [datetime.now().strftime(..)] at the time of
    the call. *)
Variable float_of_str : string -> option float.
Variable mean_of : list float -> float.
Variable upper : string -> string.
Variable strip : string -> string.
Variable format_2f : float -> string.
Variable now : string.

(** [count_by_level().items()]: the loop of [count_by_level] on a dict that
    remembers the order in which its keys were inserted. *)
Definition count_by_level_items (logs : list string) : list (string * Z) :=
  fold_left
    (fun counts log =>
       let log_upper := upper log in
       if contains "ERROR" log_upper then increment_items counts "ERROR"
       else if contains "WARNING" log_upper then increment_items counts "WARNING"
       else if contains "INFO" log_upper then increment_items counts "INFO"
       else counts)
    logs [].

Definition generate_production_report (data : list (gmap string string)) : M string :=
  let report :=
    [ str_mul "=" 60;
      "PRODUCTION DATA ANALYSIS REPORT";
      str_mul "=" 60;
      ("Generated: " ++ now)%string;
      "" ] in
  avg ← calculate_daily_average float_of_str mean_of data;
  let report :=
    report ++ [("Average Daily Production: " ++ format_2f avg ++ " barrels" ++ newline)%string] in
  let report := report ++ ["Top 5 Production Days:"] in
  let report := report ++ [str_mul "-" 40] in
  top ← get_top_days float_of_str data 5;
  let report :=
    fold_left
      (fun report '(i, day) =>
         report ++ [(str_of_int i ++ ". " ++ date day ++ ": "
                     ++ format_2f (production day) ++ " barrels")%string])
      (enumerate_from 1 top) report in
  errors ← validate_data float_of_str data;
  let report :=
    report ++ [(newline ++ "Data Quality: " ++ str_of_int (len errors)
                ++ " errors found")%string] in
  let report :=
    fold_left
      (fun report err =>
         report ++ [("  - Row " ++ str_of_int (row err) ++ ": " ++ error err)%string])
      (slice errors None (Some 5)) report in
  let report := report ++ [str_mul "=" 60] in
  mret (String.concat newline report).

Definition generate_log_report (logs : list string) : string :=
  let report :=
    [ str_mul "=" 60;
      "SYSTEM LOG ANALYSIS REPORT";
      str_mul "=" 60;
      ("Generated: " ++ now)%string;
      "" ] in
  let counts := count_by_level_items logs in
  let report := report ++ ["Log Summary:"] in
  let report :=
    fold_left
      (fun report '(level, count) =>
         report ++ [("  " ++ level ++ ": " ++ str_of_int count ++ " entries")%string])
      counts report in
  let errors := extract_errors upper strip logs in
  let report :=
    report ++ [(newline ++ "Total Errors: " ++ str_of_int (len errors))%string] in
  let report :=
    fold_left
      (fun report err =>
         report ++ [("  - " ++ String.substring 0 80 err ++ "...")%string])
      (slice errors (Some (-5)) None) report in
  let report := report ++ [str_mul "=" 60] in
  String.concat newline report.

End Reports.

End ReportGenerator.

(** ** Formatting a float with two decimals

    [f"{x:.2f}"] prints the decimal number with two fractional digits
    nearest to the exact value of the float, ties going to the even digit.
    This instance is used to run the report generator. *)

Module Formatting.

(** The exact value of a finite float times 100, as a fraction. *)
Definition hundredths (m : positive) (e : Z) : Z * Z :=
  if 0 <=? e then (Zpos m * 100 * 2 ^ e, 1) else (Zpos m * 100, 2 ^ (- e)).

Definition round_half_even (num den : Z) : Z :=
  let q := num / den in
  let r := num mod den in
  if (den <? 2 * r) || ((2 * r =? den) && Z.odd q) then q + 1 else q.

Definition two_digits (k : Z) : string :=
  let pad := if k <? 10 then "0" else "" in
  (pad ++ ReportGenerator.str_of_int k)%string.

Definition fixed2 (neg : bool) (q : Z) : string :=
  let sign := if neg then "-" else "" in
  let whole := ReportGenerator.str_of_int (q / 100) in
  let cents := two_digits (q mod 100) in
  (sign ++ whole ++ "." ++ cents)%string.

Definition format_2f (f : float) : string :=
  match Prim2SF f with
  | S754_nan => "nan"
  | S754_infinity s => if s then "-inf" else "inf"
  | S754_zero s => fixed2 s 0
  | S754_finite s m e =>
      let '(num, den) := hundredths m e in fixed2 s (round_half_even num den)
  end.

End Formatting.

(** ** The vocabulary of the further properties *)

Module Vocabulary.

Import ProductionDataProcessor.

(** The list without the repetitions of an element already met. *)
Fixpoint distinct (l : list string) : list string :=
  match l with
  | [] => []
  | x :: l' => x :: List.filter (fun y => negb (String.eqb y x)) (distinct l')
  end.

(** Counting one line on the ordered dict. *)
Definition count_line_items (upper : string -> string)
    (counts : list (string * Z)) (log : string) : list (string * Z) :=
  match Spec.severity upper log with
  | Some k => ReportGenerator.increment_items counts k
  | None => counts
  end.

(** The key is not among [keys]. *)
Definition fresh (keys : list string) (k : string) : bool :=
  negb (existsb (String.eqb k) keys).

(** The counts of two logs, added bucket by bucket. *)
Definition add_counts (c1 c2 : gmap string Z) : gmap string Z :=
  union_with (fun a b => Some (a + b)) c1 c2.

(** A validation error whose row number is moved by [k]. *)
Definition shift_row (k : Z) (e : validation_error) : validation_error :=
  ValidationError (row e + k) (error e) (value e).

(** The error was reported for a value that does not parse. *)
Definition is_invalid (e : validation_error) : bool :=
  String.eqb (error e) "Invalid production value".

(** The line of the log report for one bucket of the summary. *)
Definition summary_line (item : string * Z) : string :=
  ("  " ++ fst item ++ ": " ++ ReportGenerator.str_of_int (snd item) ++ " entries")%string.

(** The line of the log report for one error message. *)
Definition error_line (err : string) : string :=
  ("  - " ++ String.substring 0 80 err ++ "...")%string.

(** The line of the production report for the day of rank [i]. *)
Definition day_line (format_2f : float -> string) (item : Z * ranked_day) : string :=
  (ReportGenerator.str_of_int (fst item) ++ ". " ++ date (snd item) ++ ": "
   ++ format_2f (production (snd item)) ++ " barrels")%string.

(** The line of the production report for one validation error. *)
Definition row_line (err : validation_error) : string :=
  ("  - Row " ++ ReportGenerator.str_of_int (row err) ++ ": " ++ error err)%string.

End Vocabulary.

(** ** Sample inputs *)

Module Samples.

Definition day (d p : string) : gmap string string :=
  {[ "date" := d; "production" := p; "well_id" := "WELL-001" ]}.

(** Productions [10, 30, 20, 30]; the last row has no date. *)
Definition four_days : list (gmap string string) :=
  [ day "2024-01-01" "10"; day "2024-01-02" "30"; day "2024-01-03" "20";
    {[ "production" := "30" ]} ].

(** The rows of the validator example: negative, unparsable, valid, and a
    row without the field. *)
Definition validator_rows : list (gmap string string) :=
  [ {[ "production" := "-5" ]}; {[ "production" := "abc" ]};
    {[ "production" := "10" ]}; ∅ ].

Definition three_days : list (gmap string string) :=
  [ {[ "production" := "10" ]}; {[ "production" := "30" ]};
    {[ "production" := "20" ]} ].

Definition constant_series : list float := [5; 5; 5; 5]%float.

Definition spiked_series : list float :=
  [100; 105; 103; 500; 106; 108; 110]%float.

Definition log_lines : list string :=
  [ "10:00 INFO started"; "10:05 ERROR db down"; "10:10 WARNING high cpu";
    "10:15 error sensor" ].

(** The lines of [log_lines] in another order. *)
Definition shuffled_log_lines : list string :=
  [ "10:15 error sensor"; "10:00 INFO started"; "10:10 WARNING high cpu";
    "10:05 ERROR db down" ].

Definition short_series : list float := [1; 2; 3]%float.

(** Two finite points, [1.5 * 2^1023] and its opposite, whose standard
    deviation is beyond the largest float. *)
Definition huge_series : list float := [0x1.8p+1023; -0x1.8p+1023]%float.

(** A repetition count no pattern may have. *)
Definition huge_repetition : string := "a{99999999999999999999}".

End Samples.

(** * Properties *)

(** ** Comparisons and division on binary64 floats *)

Module FloatOrder.

Definition comparable (x : spec_float) : Prop := x <> S754_nan.

Ltac cmp_cases :=
  repeat match goal with
  | |- context [Z.compare ?a ?b] => destruct (Z.compare_spec a b)
  | H : context [Z.compare ?a ?b] |- _ => destruct (Z.compare_spec a b)
  | |- context [Pos.compare_cont Eq ?a ?b] =>
      change (Pos.compare_cont Eq a b) with (Pos.compare a b);
      destruct (Pos.compare_spec a b)
  | H : context [Pos.compare_cont Eq ?a ?b] |- _ =>
      change (Pos.compare_cont Eq a b) with (Pos.compare a b) in H;
      destruct (Pos.compare_spec a b)
  end.

Ltac sf_crush :=
  unfold SFltb, SFleb, SFeqb, SFcompare, comparable in *;
  repeat match goal with
  | x : spec_float |- _ => destruct x
  | b : bool |- _ => destruct b
  end;
  try congruence; try reflexivity;
  cmp_cases; subst; simpl in *; try congruence; try lia.

Lemma SFltb_leb x y : SFltb x y = true -> SFleb x y = true.
Proof. sf_crush. Qed.

Lemma SFltb_total x y :
  comparable x -> comparable y -> SFltb x y = false -> SFleb y x = true.
Proof. intros Hx Hy. sf_crush. Qed.

Lemma SFleb_trans x y z :
  SFleb x y = true -> SFleb y z = true -> SFleb x z = true.
Proof. sf_crush. Qed.

Lemma SFltb_leb_trans x y z :
  SFltb x y = true -> SFleb y z = true -> SFltb x z = true.
Proof. sf_crush. Qed.

Lemma SFleb_refl x : comparable x -> SFleb x x = true.
Proof. intros Hx. sf_crush. Qed.

Lemma SFleb_antisym x y :
  SFleb x y = true -> SFleb y x = true -> SFeqb x y = true.
Proof. sf_crush. Qed.

Lemma SFeqb_ltb_trans v x z :
  SFeqb x v = true -> SFltb x z = true -> SFeqb z v = false.
Proof. sf_crush. Qed.


Lemma Prim2SF_zero : Prim2SF 0 = S754_zero false.
Proof. reflexivity. Qed.

Lemma not_nan_comparable f : is_nan f = false -> comparable (Prim2SF f).
Proof.
  unfold is_nan. rewrite FloatAxioms.eqb_spec. intros H E. rewrite E in H. discriminate H.
Qed.

Lemma ltb_leb x y : (x <? y)%float = true -> (x <=? y)%float = true.
Proof. rewrite FloatAxioms.ltb_spec, FloatAxioms.leb_spec. apply SFltb_leb. Qed.

Lemma ltb_total x y :
  is_nan x = false -> is_nan y = false ->
  (x <? y)%float = false -> (y <=? x)%float = true.
Proof.
  intros Hx Hy. rewrite FloatAxioms.ltb_spec, FloatAxioms.leb_spec.
  apply SFltb_total; now apply not_nan_comparable.
Qed.

Lemma leb_trans x y z :
  (x <=? y)%float = true -> (y <=? z)%float = true -> (x <=? z)%float = true.
Proof. rewrite !FloatAxioms.leb_spec. apply SFleb_trans. Qed.

Lemma ltb_leb_trans x y z :
  (x <? y)%float = true -> (y <=? z)%float = true -> (x <? z)%float = true.
Proof. rewrite !FloatAxioms.ltb_spec, FloatAxioms.leb_spec. apply SFltb_leb_trans. Qed.

Lemma eqb_ltb_trans v x z :
  (x =? v)%float = true -> (x <? z)%float = true -> (z =? v)%float = false.
Proof. rewrite !FloatAxioms.eqb_spec, FloatAxioms.ltb_spec. apply SFeqb_ltb_trans. Qed.

Lemma leb_refl x : is_nan x = false -> (x <=? x)%float = true.
Proof. intros H. rewrite FloatAxioms.leb_spec. now apply SFleb_refl, not_nan_comparable. Qed.

Lemma leb_antisym x y :
  (x <=? y)%float = true -> (y <=? x)%float = true -> (x =? y)%float = true.
Proof. rewrite !FloatAxioms.leb_spec, FloatAxioms.eqb_spec. apply SFleb_antisym. Qed.

Lemma eqb_refl x : is_nan x = false -> (x =? x)%float = true.
Proof. unfold is_nan. now destruct (x =? x)%float. Qed.

Lemma positive_nonzero s : (0 <? s)%float = true -> (s =? 0)%float = false.
Proof.
  rewrite FloatAxioms.ltb_spec, FloatAxioms.eqb_spec, Prim2SF_zero.
  destruct (Prim2SF s) as [[]|[]| |[] m e]; unfold SFltb, SFeqb; simpl; congruence.
Qed.

Lemma SFabs_round_aux s m e l :
  SFabs (binary_round_aux prec emax s m e l) = binary_round_aux prec emax false m e l.
Proof.
  unfold binary_round_aux.
  destruct (shr_fexp prec emax m e l) as [mrs' e'].
  destruct (shr_fexp prec emax _ e' loc_Exact) as [mrs'' e''].
  destruct (shr_m mrs''); try reflexivity.
  destruct (e'' <=? emax - prec); reflexivity.
Qed.

Lemma SFabs_div x y :
  SFltb (S754_zero false) y = true ->
  SFabs (SF64div x y) = SF64div (SFabs x) y.
Proof.
  unfold SF64div, SFdiv.
  destruct x as [sx|sx| |sx mx ex], y as [sy|sy| |sy my ey]; simpl;
    try discriminate; try reflexivity;
    destruct sy; simpl; try discriminate; intros _; try reflexivity.
  destruct (SFdiv_core_binary prec emax (Z.pos mx) ex (Z.pos my) ey) as [[mz ez] lz].
  rewrite xorb_false_r. apply SFabs_round_aux.
Qed.

Lemma abs_div a b : (0 <? b)%float = true -> abs (a / b) = (abs a / b)%float.
Proof.
  intros H. apply Prim2SF_inj.
  rewrite FloatAxioms.abs_spec, !FloatAxioms.div_spec, FloatAxioms.abs_spec.
  apply SFabs_div. now rewrite FloatAxioms.ltb_spec, Prim2SF_zero in H.
Qed.

Lemma zero_not_positive s : (s =? 0)%float = true -> (0 <? s)%float = false.
Proof.
  rewrite FloatAxioms.ltb_spec, FloatAxioms.eqb_spec, Prim2SF_zero.
  destruct (Prim2SF s) as [[]|[]| |[] m e]; unfold SFltb, SFeqb; simpl; congruence.
Qed.

Lemma leb_zero_not_positive s : (s <=? 0)%float = true -> (0 <? s)%float = false.
Proof.
  rewrite FloatAxioms.ltb_spec, FloatAxioms.leb_spec, Prim2SF_zero.
  destruct (Prim2SF s) as [[]|[]| |[] m e]; unfold SFltb, SFleb; simpl; congruence.
Qed.

End FloatOrder.


(** ** [sorted] *)

Module SortFacts.

Import FloatOrder Spec.

Section Sorting.

Context {A : Type} (key : A -> float).

Local Abbreviation no_nan := (Spec.no_nan key).
Local Abbreviation ascending := (Spec.ascending key).
Local Abbreviation descending := (Spec.descending key).
Local Abbreviation ties := (Spec.ties key).

Lemma insort_perm x l : Permutation (insort key x l) (x :: l).
Proof.
  induction l as [|y l IH]; simpl; [reflexivity|].
  destruct (key x <? key y)%float; [reflexivity|].
  rewrite IH. apply perm_swap.
Qed.

Lemma list_sort_perm_acc l run :
  Permutation (fold_left (fun run x => insort key x run) l run) (run ++ l).
Proof.
  revert run. induction l as [|x l IH]; intros run; simpl.
  - now rewrite app_nil_r.
  - rewrite IH, insort_perm. apply Permutation_middle.
Qed.

Lemma list_sort_perm l : Permutation (list_sort key l) l.
Proof. apply list_sort_perm_acc. Qed.

Lemma insort_ascending x l :
  is_nan (key x) = false -> no_nan l -> ascending l -> ascending (insort key x l).
Proof.
  intros Hx Hl Hs. induction l as [|y l IH]; simpl.
  - repeat constructor.
  - apply StronglySorted_inv in Hs as [Hs Hy].
    inversion Hl as [|? ? Hny Hl']; subst.
    destruct (key x <? key y)%float eqn:E.
    + constructor; [constructor; assumption|].
      constructor; [now apply ltb_leb|].
      eapply List.Forall_impl; [|exact Hy]. intros z Hz.
      eapply leb_trans; [apply ltb_leb; exact E|exact Hz].
    + constructor; [now apply IH|].
      eapply Permutation_Forall; [symmetry; apply insort_perm|].
      constructor; [now apply ltb_total|assumption].
Qed.

Lemma no_nan_perm l l' : Permutation l l' -> no_nan l -> no_nan l'.
Proof. intros P. now apply Permutation_Forall. Qed.

Lemma list_sort_ascending_acc l run :
  no_nan l -> no_nan run -> ascending run ->
  ascending (fold_left (fun run x => insort key x run) l run).
Proof.
  revert run. induction l as [|x l IH]; intros run Hl Hr Hs; simpl; [assumption|].
  inversion Hl; subst. apply IH; trivial.
  - eapply no_nan_perm; [symmetry; apply insort_perm|]. now constructor.
  - now apply insort_ascending.
Qed.

Lemma list_sort_ascending l : no_nan l -> ascending (list_sort key l).
Proof. intros H. apply list_sort_ascending_acc; trivial; constructor. Qed.

Lemma ties_none_above v x l :
  (key x =? v)%float = true ->
  Forall (fun z => (key x <? key z)%float = true) l ->
  ties v l = [].
Proof.
  intros Hv. induction 1 as [|z l Hz _ IH]; simpl; [reflexivity|].
  now rewrite (eqb_ltb_trans v (key x) (key z)).
Qed.

Lemma ties_cons v a l :
  ties v (a :: l) = if (key a =? v)%float then a :: ties v l else ties v l.
Proof. reflexivity. Qed.

Lemma insort_ties v x l :
  ascending l -> ties v (insort key x l) = ties v l ++ ties v [x].
Proof.
  intros Hs. induction l as [|y l IH]; [reflexivity|].
  apply StronglySorted_inv in Hs as [Hs Hy]. cbn [insort].
  destruct (key x <? key y)%float eqn:E.
  - rewrite (ties_cons v x (y :: l)), (ties_cons v x []).
    destruct (key x =? v)%float eqn:Ev; [|now rewrite app_nil_r].
    rewrite (ties_none_above v x (y :: l)); trivial.
    constructor; [assumption|].
    eapply List.Forall_impl; [|exact Hy]. intros z Hz.
    now apply (ltb_leb_trans _ (key y)).
  - rewrite !(ties_cons v y), (IH Hs).
    destruct (key y =? v)%float; reflexivity.
Qed.

Lemma ties_app v l1 l2 : ties v (l1 ++ l2) = ties v l1 ++ ties v l2.
Proof. apply List.filter_app. Qed.

Lemma list_sort_ties_acc v l run :
  no_nan l -> no_nan run -> ascending run ->
  ties v (fold_left (fun run x => insort key x run) l run) = ties v run ++ ties v l.
Proof.
  revert run. induction l as [|x l IH]; intros run Hl Hr Hs; simpl.
  - now rewrite app_nil_r.
  - inversion Hl; subst. rewrite IH; trivial.
    + rewrite insort_ties by assumption.
      now rewrite <- app_assoc, <- ties_app.
    + eapply no_nan_perm; [symmetry; apply insort_perm|]. now constructor.
    + now apply insort_ascending.
Qed.

Lemma list_sort_ties v l : no_nan l -> ties v (list_sort key l) = ties v l.
Proof. intros H. apply (list_sort_ties_acc v l []); trivial; constructor. Qed.

Lemma ascending_rev l : ascending l -> descending (rev l).
Proof.
  induction 1 as [|a l Hs IH Ha]; simpl; [constructor|].
  apply StronglySorted_app_2; [|assumption|repeat constructor].
  intros x1 x2 H1 H2. apply list_elem_of_singleton in H2 as ->.
  rewrite List.Forall_forall in Ha. apply Ha.
  apply in_rev. now apply list_elem_of_In.
Qed.

(** [sorted(l, key=key, reverse=True)] is a rearrangement of [l] in
    descending key order in which equal keys keep their input order. *)
Lemma sorted_reverse_spec l :
  no_nan l ->
  Permutation (sorted key true l) l /\
  descending (sorted key true l) /\
  forall v, ties v (sorted key true l) = ties v l.
Proof.
  intros H. unfold sorted.
  assert (no_nan (rev l)) as Hr.
  { eapply no_nan_perm; [apply Permutation_rev|assumption]. }
  split; [|split].
  - rewrite <- Permutation_rev, list_sort_perm. symmetry. apply Permutation_rev.
  - apply ascending_rev. now apply list_sort_ascending.
  - intros v. unfold ties. rewrite List.filter_rev.
    fold (ties v (list_sort key (rev l))). rewrite list_sort_ties by assumption.
    unfold ties. now rewrite List.filter_rev, rev_involutive.
Qed.

(** A ranking with these three properties is unique: every stable sort in
    descending key order returns the list [sorted] returns. *)
Lemma stable_descending_unique l1 l2 :
  no_nan l1 -> Permutation l1 l2 -> descending l1 -> descending l2 ->
  (forall v, ties v l1 = ties v l2) -> l1 = l2.
Proof.
  revert l2. induction l1 as [|a t1 IH]; intros l2 Hnan Hperm Hd1 Hd2 Hties.
  - now apply Permutation_nil in Hperm.
  - destruct l2 as [|b t2].
    { symmetry in Hperm. now apply Permutation_nil in Hperm. }
    assert (no_nan (b :: t2)) as Hnan2 by (eapply no_nan_perm; eassumption).
    inversion Hnan as [|? ? Ha Hnan1]; subst.
    inversion Hnan2 as [|? ? Hb _]; subst.
    apply StronglySorted_inv in Hd1 as [Hd1 Ht1].
    apply StronglySorted_inv in Hd2 as [Hd2 Ht2].
    assert ((key a <=? key b)%float = true) as Hab.
    { assert (In a (b :: t2)) as [->|Hin]
        by (eapply Permutation_in; [exact Hperm|now left]).
      - now apply leb_refl.
      - rewrite List.Forall_forall in Ht2. now apply Ht2. }
    assert ((key b <=? key a)%float = true) as Hba.
    { assert (In b (a :: t1)) as [->|Hin]
        by (eapply Permutation_in; [symmetry; exact Hperm|now left]).
      - now apply leb_refl.
      - rewrite List.Forall_forall in Ht1. now apply Ht1. }
    pose proof (Hties (key a)) as Hhead.
    rewrite !ties_cons, (eqb_refl _ Ha), (leb_antisym _ _ Hba Hab) in Hhead.
    injection Hhead as <- _.
    f_equal. apply IH; trivial.
    + now apply Permutation_cons_inv in Hperm.
    + intros v. specialize (Hties v). rewrite !ties_cons in Hties.
      destruct (key a =? v)%float; [now injection Hties|exact Hties].
Qed.

Lemma sorted_reverse_unique l l' :
  no_nan l -> Permutation l' l -> descending l' ->
  (forall v, ties v l' = ties v l) -> l' = sorted key true l.
Proof.
  intros Hnan Hperm Hdesc Hties.
  destruct (sorted_reverse_spec l Hnan) as (Hp & Hd & Ht).
  apply stable_descending_unique; trivial.
  - eapply no_nan_perm; [symmetry; exact Hperm|exact Hnan].
  - now rewrite Hperm, Hp.
  - intros v. now rewrite Hties, Ht.
Qed.

End Sorting.

End SortFacts.

(** ** Loops, [enumerate] and slices *)

Module PyFacts.

Lemma for_each_append {A B : Type} (body : list B -> A -> M (list B))
    (f : A -> list B) (l : list A) (acc : list B) :
  (forall acc x, body acc x = mret (acc ++ f x)) ->
  for_each body acc l = mret (acc ++ flat_map f l).
Proof.
  intros Hbody. revert acc.
  induction l as [|x l IH]; intros acc; simpl.
  - now rewrite app_nil_r.
  - rewrite Hbody. simpl. now rewrite IH, <- app_assoc.
Qed.

Lemma comprehension_map {A B : Type} (f : A -> M B) (g : A -> B) (l : list A) :
  (forall x, In x l -> f x = mret (g x)) ->
  comprehension f l = mret (List.map g l).
Proof.
  induction l as [|x l IH]; intros Hf; simpl; [reflexivity|].
  rewrite (Hf x) by now left. simpl.
  rewrite IH by (intros y Hy; apply Hf; now right). reflexivity.
Qed.

Lemma flat_map_option {A B : Type} (f : A -> option B) (l : list A) :
  flat_map (fun x => match f x with Some y => [y] | None => [] end) l = omap f l.
Proof.
  induction l as [|x l IH]; simpl; [reflexivity|].
  rewrite IH. now destruct (f x).
Qed.

Lemma enumerate_from_In {A : Type} (l : list A) (k i : Z) (x : A) :
  In (i, x) (enumerate_from k l) <->
  exists j : nat, i = k + Z.of_nat j /\ l !! j = Some x.
Proof.
  revert k. induction l as [|y l IH]; intros k; simpl.
  - split; [tauto|]. intros (j & _ & Hj). discriminate Hj.
  - rewrite IH. split.
    + intros [E|(j & -> & Hj)].
      * inversion E; subst. exists 0%nat. split; [lia|reflexivity].
      * exists (S j). split; [lia|exact Hj].
    + intros ([|j] & -> & Hj); simpl in Hj.
      * left. inversion Hj. f_equal. lia.
      * right. exists j. split; [lia|exact Hj].
Qed.

(** A loop over [enumerate] that appends at most one entry per element,
    keyed by the position plus [off], builds a list in strictly increasing
    key order. *)
Lemma flat_map_enumerate_sorted {A B : Type} (f : Z -> A -> list B) (key : B -> Z)
    (off : Z) (l : list A) (k : Z) :
  (forall i x e, In e (f i x) -> key e = i + off) ->
  (forall i x, (length (f i x) <= 1)%nat) ->
  let out := flat_map (fun '(i, x) => f i x) (enumerate_from k l) in
  StronglySorted (fun a b => key a < key b) out /\
  Forall (fun e => k + off <= key e) out.
Proof.
  intros Hkey Hone. revert k. induction l as [|x l IH]; intros k; simpl.
  - split; constructor.
  - destruct (IH (k + 1)) as [Hs Hk].
    assert (Forall (fun e => k + off <= key e)
              (flat_map (fun '(i, x) => f i x) (enumerate_from (k + 1) l))) as Hk'.
    { eapply List.Forall_impl; [|exact Hk]. simpl. intros; lia. }
    specialize (Hkey k x). specialize (Hone k x).
    destruct (f k x) as [|e [|e' q]]; simpl in *; [now split| |lia].
    assert (key e = k + off) as He by (apply Hkey; now left).
    split; constructor; trivial; [|lia].
    eapply List.Forall_impl; [|exact Hk]. simpl. intros; lia.
Qed.

Lemma flat_map_nothing {A B : Type} (l : list A) :
  flat_map (fun _ : A => @nil B) l = [].
Proof. induction l; simpl; trivial. Qed.

Lemma In_range (n i : Z) : In i (range n) <-> 0 <= i < n.
Proof.
  unfold range. rewrite in_map_iff. split.
  - intros (j & <- & Hj). apply in_seq in Hj. lia.
  - intros H. exists (Z.to_nat i). split; [lia|]. apply in_seq. lia.
Qed.

Lemma range_lookup (n : Z) (i : nat) :
  Z.of_nat i < n -> range n !! i = Some (Z.of_nat i).
Proof.
  intros H. unfold range. rewrite list_lookup_fmap.
  rewrite lookup_seq_lt by lia. reflexivity.
Qed.

Lemma len_range (n : Z) : 0 <= n -> len (range n) = n.
Proof. intros H. unfold len, range. rewrite length_map, length_seq. lia. Qed.

Lemma len_nonneg {A : Type} (l : list A) : 0 <= len l.
Proof. unfold len. lia. Qed.

Lemma slice_prefix {A : Type} (l : list A) (n : Z) :
  slice l None (Some n) = firstn (Z.to_nat (if n <? 0 then len l + n else n)) l.
Proof.
  unfold slice, clamp_index. simpl skipn. rewrite Z.sub_0_r.
  pose proof (len_nonneg l) as Hl.
  destruct (n <? 0) eqn:E.
  - f_equal. lia.
  - apply Z.ltb_ge in E.
    destruct (Z.le_ge_cases n (len l)) as [H|H].
    + now rewrite Z.min_l.
    + rewrite Z.min_r by lia. unfold len in *.
      rewrite Nat2Z.id, !firstn_all2; trivial; lia.
Qed.

Lemma slice_suffix {A : Type} (l : list A) (n : Z) :
  0 <= n <= len l -> slice l (Some n) None = skipn (Z.to_nat n) l.
Proof.
  intros H. unfold slice, clamp_index.
  rewrite (proj2 (Z.ltb_ge n 0)) by lia. rewrite Z.min_l by lia.
  apply firstn_all2. rewrite length_skipn. unfold len in *. lia.
Qed.

Lemma slice_window {A : Type} (l : list A) (i w : Z) :
  0 <= i -> 0 <= w -> i + w <= len l ->
  slice l (Some i) (Some (i + w)) = firstn (Z.to_nat w) (skipn (Z.to_nat i) l).
Proof.
  intros Hi Hw H. unfold slice, clamp_index.
  rewrite (proj2 (Z.ltb_ge i 0)), (proj2 (Z.ltb_ge (i + w) 0)) by lia.
  rewrite !Z.min_l by lia. f_equal. lia.
Qed.

End PyFacts.

(** ** ProductionDataProcessor *)

Module ProductionFacts.

Import ProductionDataProcessor Spec PyFacts.

Section Processor.

Variable float_of_str : string -> option float.
Variable mean_of : list float -> float.

Local Abbreviation reports := (Spec.reports float_of_str).
Local Abbreviation parsed_production := (Spec.parsed_production float_of_str).
Local Abbreviation ranked := (Spec.ranked float_of_str).

(** *** [validate_data] *)

Lemma validate_data_flat (data : list (gmap string string)) :
  validate_data float_of_str data
  = mret (flat_map (fun '(i, r) => reports i r) (enumerate data)).
Proof.
  unfold validate_data.
  rewrite (for_each_append _ (fun '(i, r) => reports i r)); [reflexivity|].
  intros errors [i r]. unfold reports, has_key, getitem, py_float.
  destruct (r !! "production") as [s|]; simpl; [|now rewrite app_nil_r].
  destruct (float_of_str s) as [p|]; simpl; [|reflexivity].
  destruct (p <? 0)%float; simpl; [reflexivity|now rewrite app_nil_r].
Qed.

Lemma reports_In (e : validation_error) (i : Z) (r : gmap string string) :
  In e (reports i r) <->
  exists s, r !! "production" = Some s /\ row e = i + 1 /\
    match float_of_str s with
    | None => error e = message MalformedValue /\ value e = VStr s
    | Some p => (p <? 0)%float = true /\
                error e = message NegativeValue /\ value e = VFloat p
    end.
Proof.
  unfold reports. destruct (r !! "production") as [s|]; simpl.
  - split.
    + intros H. exists s. split; [reflexivity|].
      destruct (float_of_str s) as [p|]; [destruct (p <? 0)%float eqn:E|];
        simpl in H; try contradiction; destruct H as [<-|[]]; simpl; auto.
    + intros (s' & [= <-] & Hrow & H). destruct e as [ro er va]; simpl in *.
      destruct (float_of_str s) as [p|].
      * destruct H as (-> & -> & ->). subst. now left.
      * destruct H as (-> & ->). subst. now left.
  - split; [tauto|]. intros (s & H & _). discriminate H.
Qed.

(** C4. [validate_data] never raises. Its errors come in strictly increasing
    1-based row order, and they are exactly: for a row whose production does
    not parse, an invalid-value error carrying the raw string; for a row
    whose parsed production is below zero, a negative-value error carrying
    the parsed float. A row without a production field is not reported. *)
Theorem validate_data_reports (data : list (gmap string string)) :
  exists errors,
    validate_data float_of_str data = inr errors /\
    StronglySorted (fun e1 e2 => row e1 < row e2) errors /\
    forall e, e ∈ errors <->
      exists (i : nat) r s,
        data !! i = Some r /\ r !! "production" = Some s /\
        row e = Z.of_nat i + 1 /\
        match float_of_str s with
        | None => error e = message MalformedValue /\ value e = VStr s
        | Some p => (p <? 0)%float = true /\
                    error e = message NegativeValue /\ value e = VFloat p
        end.
Proof.
  eexists. split; [apply validate_data_flat|]. split.
  - apply (flat_map_enumerate_sorted reports row 1 data 0).
    + intros i r e He. apply reports_In in He as (s & _ & Hrow & _). exact Hrow.
    + intros i r. unfold Spec.reports.
      destruct (r !! "production") as [s|]; [|simpl; lia].
      destruct (float_of_str s) as [p|]; [destruct (p <? 0)%float|]; simpl; lia.
  - intros e. rewrite list_elem_of_In, in_flat_map. split.
    + intros ([i r] & Hin & He).
      apply enumerate_from_In in Hin as (j & -> & Hj).
      apply reports_In in He as (s & Hs & Hrow & H).
      exists j, r, s. repeat split; trivial.
    + intros (j & r & s & Hj & Hs & Hrow & H).
      exists (Z.of_nat j, r). split.
      * apply enumerate_from_In. exists j. split; [lia|exact Hj].
      * apply reports_In. exists s. repeat split; trivial.
Qed.

(** *** The aggregation loops *)

Lemma productions_loop (data : list (gmap string string)) :
  for_each
    (fun productions r =>
       try_except
         (p ← py_float float_of_str (dict_get r "production" 0);
          mret (productions ++ [p]))
         ValueError
         (mret productions))
    [] data
  = mret (omap parsed_production data).
Proof.
  rewrite (for_each_append _
             (fun r => match parsed_production r with Some p => [p] | None => [] end)).
  - simpl. now rewrite flat_map_option.
  - intros acc r. unfold Spec.parsed_production, dict_get, py_float.
    destruct (r !! "production") as [s|]; simpl; [|reflexivity].
    destruct (float_of_str s); simpl; [reflexivity|now rewrite app_nil_r].
Qed.

(** C5. [calculate_daily_average] returns the mean of the productions that
    parse, where a record without the field counts as [0] and an unparsable
    field is skipped; when nothing parses it returns [0.0] and does not
    raise. *)
Theorem calculate_daily_average_mean (data : list (gmap string string)) :
  let productions := omap parsed_production data in
  calculate_daily_average float_of_str mean_of data
  = inr (match productions with [] => 0%float | _ :: _ => mean_of productions end)
  /\ ((forall r, r ∈ data -> parsed_production r = None) ->
      calculate_daily_average float_of_str mean_of data = inr 0%float)
  /\ (forall r, r !! "production" = None -> parsed_production r = Some 0%float).
Proof.
  intros productions.
  assert (calculate_daily_average float_of_str mean_of data
          = inr (match productions with [] => 0%float | _ :: _ => mean_of productions end))
    as Heq.
  { unfold calculate_daily_average. rewrite productions_loop. simpl.
    fold productions. destruct productions as [|p l]; [reflexivity|].
    unfold statistics_mean, len.
    now rewrite (proj2 (Z.ltb_ge _ 1)) by (simpl length; lia). }
  split; [exact Heq|split].
  - intros Hnone. rewrite Heq.
    assert (productions = []) as ->; [|reflexivity].
    subst productions. clear Heq.
    induction data as [|r data IH]; [reflexivity|]. simpl.
    rewrite (Hnone r) by left. apply IH. intros r' Hr'. apply Hnone. now right.
  - intros r Hr. unfold Spec.parsed_production. now rewrite Hr.
Qed.

(** *** [get_top_days] *)

Lemma valid_data_loop (data : list (gmap string string)) :
  for_each
    (fun valid_data r =>
       try_except
         (prod ← py_float float_of_str (dict_get r "production" 0);
          let d := match dict_get r "date" "Unknown" with inl s => s | inr s => s end in
          mret (valid_data ++ [RankedDay d prod]))
         ValueError
         (mret valid_data))
    [] data
  = mret (omap ranked data).
Proof.
  rewrite (for_each_append _
             (fun r => match ranked r with Some d => [d] | None => [] end)).
  - simpl. now rewrite flat_map_option.
  - intros acc r. unfold Spec.ranked, Spec.parsed_production, dict_get, py_float.
    destruct (r !! "production") as [s|]; simpl.
    + destruct (float_of_str s); simpl; [|now rewrite app_nil_r].
      now destruct (r !! "date").
    + now destruct (r !! "date").
Qed.

Lemma get_top_days_sorted (data : list (gmap string string)) (n : Z) :
  get_top_days float_of_str data n
  = inr (firstn (Z.to_nat (if n <? 0
                           then len (sorted production true (omap ranked data)) + n
                           else n))
                (sorted production true (omap ranked data))).
Proof.
  unfold get_top_days. rewrite valid_data_loop. simpl.
  now rewrite slice_prefix.
Qed.

(** C1, as the code has it. When no parsed production is a NaN,
    [get_top_days] ranks the records whose production parses (a missing
    field counting as [0]) in descending order of production, equal
    productions keeping their input order; this ranking is the only one with
    these properties. It returns the first [n] entries of the ranking when
    [n >= 0], so nothing when [n = 0], and the ranking without its last [-n]
    entries when [n < 0]. [n] defaults to 5. *)
Theorem get_top_days_ranking (data : list (gmap string string)) (n : Z) :
  no_nan production (omap ranked data) ->
  exists ranking,
    Permutation ranking (omap ranked data) /\
    descending production ranking /\
    (forall v, ties production v ranking = ties production v (omap ranked data)) /\
    (forall other,
        Permutation other (omap ranked data) ->
        descending production other ->
        (forall v, ties production v other = ties production v (omap ranked data)) ->
        other = ranking) /\
    get_top_days float_of_str data n
    = inr (firstn (Z.to_nat (if n <? 0 then len ranking + n else n)) ranking) /\
    get_top_days float_of_str data 0 = inr [] /\
    get_top_days_default float_of_str data = get_top_days float_of_str data 5.
Proof.
  intros Hnan.
  destruct (SortFacts.sorted_reverse_spec production _ Hnan) as (Hperm & Hdesc & Hties).
  exists (sorted production true (omap ranked data)).
  repeat split; trivial.
  - intros other Hp Hd Ht. now apply SortFacts.sorted_reverse_unique.
  - apply get_top_days_sorted.
  - now rewrite get_top_days_sorted.
Qed.

End Processor.

(** The hypothesis and the conclusion of [get_top_days_ranking] on four
    rows with a tie, [n = 2]. *)
Lemma get_top_days_ranking_witness :
  no_nan production (omap (Spec.ranked Reference.float_of_str) Samples.four_days) /\
  exists ranking,
    Permutation ranking (omap (Spec.ranked Reference.float_of_str) Samples.four_days) /\
    descending production ranking /\
    (forall v, ties production v ranking
               = ties production v (omap (Spec.ranked Reference.float_of_str) Samples.four_days)) /\
    (forall other,
        Permutation other (omap (Spec.ranked Reference.float_of_str) Samples.four_days) ->
        descending production other ->
        (forall v, ties production v other
                   = ties production v (omap (Spec.ranked Reference.float_of_str) Samples.four_days)) ->
        other = ranking) /\
    get_top_days Reference.float_of_str Samples.four_days 2
    = inr (firstn (Z.to_nat (if 2 <? 0 then len ranking + 2 else 2)) ranking) /\
    get_top_days Reference.float_of_str Samples.four_days 0 = inr [] /\
    get_top_days_default Reference.float_of_str Samples.four_days
    = get_top_days Reference.float_of_str Samples.four_days 5.
Proof.
  assert (no_nan production
            (omap (Spec.ranked Reference.float_of_str) Samples.four_days)) as H.
  { vm_compute. repeat constructor. }
  split; [exact H|].
  exact (get_top_days_ranking Reference.float_of_str Samples.four_days 2 H).
Defined.

(** C1 as stated fails for a negative [n]: on productions [10, 30, 20, 30]
    and [n = -1] the result is the ranking without its last entry, which is
    not empty. *)
Lemma get_top_days_negative_n :
  get_top_days Reference.float_of_str Samples.four_days (-1)
  = inr [ RankedDay "2024-01-02" 30; RankedDay "Unknown" 30; RankedDay "2024-01-03" 20 ]
  /\ get_top_days Reference.float_of_str Samples.four_days (-1) <> inr [].
Proof.
  assert (get_top_days Reference.float_of_str Samples.four_days (-1)
          = inr [ RankedDay "2024-01-02" 30; RankedDay "Unknown" 30;
                  RankedDay "2024-01-03" 20 ]) as E by (vm_compute; reflexivity).
  split; [exact E|]. rewrite E. discriminate.
Qed.

End ProductionFacts.

(** ** LogFileAnalyzer *)

Module LogFacts.

Import LogFileAnalyzer Spec PyFacts.

Section Analyzer.

Variable upper : string -> string.
Variable strip : string -> string.
Variable regex : Type.
Variable re_compile : string -> M regex.
Variable re_match : regex -> string -> bool.

Local Abbreviation severity := (Spec.severity upper).
Local Abbreviation observed := (Spec.observed upper).
Local Abbreviation find_pattern := (LogFileAnalyzer.find_pattern strip regex re_compile re_match).

Local Abbreviation count_line := (Spec.count_line upper).

(** *** [count_by_level] *)

Lemma severity_priority (log : string) :
  severity log
  = if contains "ERROR" (upper log) then Some "ERROR"
    else if contains "WARNING" (upper log) then Some "WARNING"
    else if contains "INFO" (upper log) then Some "INFO"
    else None.
Proof. reflexivity. Qed.

Lemma count_by_level_fold (logs : list string) :
  count_by_level upper logs = fold_left count_line logs ∅.
Proof.
  unfold count_by_level. generalize (∅ : gmap string Z).
  induction logs as [|log logs IH]; intros m; simpl; [reflexivity|].
  rewrite IH. f_equal. unfold Spec.count_line. rewrite severity_priority.
  destruct (contains "ERROR" (upper log)); [reflexivity|].
  destruct (contains "WARNING" (upper log)); [reflexivity|].
  destruct (contains "INFO" (upper log)); reflexivity.
Qed.

Lemma observed_nonneg (k : string) (logs : list string) : 0 <= observed k logs.
Proof. apply len_nonneg. Qed.

Lemma observed_cons (k : string) (log : string) (logs : list string) :
  observed k (log :: logs)
  = (if bool_decide (severity log = Some k) then 1 else 0) + observed k logs.
Proof.
  unfold Spec.observed, len. simpl.
  destruct (bool_decide (severity log = Some k)); simpl length; lia.
Qed.

Lemma count_line_lookup (m : gmap string Z) (log k : string) :
  count_line m log !! k
  = if bool_decide (severity log = Some k)
    then Some (default 0 (m !! k) + 1)
    else m !! k.
Proof.
  unfold Spec.count_line, increment.
  destruct (severity log) as [t|]; [|now rewrite bool_decide_eq_false_2].
  destruct (decide (t = k)) as [->|Hne].
  - rewrite bool_decide_eq_true_2 by reflexivity. apply lookup_insert_eq.
  - rewrite bool_decide_eq_false_2 by congruence. now apply lookup_insert_ne.
Qed.

(** The loop invariant of [count_by_level]: started from the counts [m],
    the bucket [k] ends with what it had plus the lines of severity [k], and
    stays absent when it was absent and no such line is met. *)
Lemma count_fold_lookup (logs : list string) (m : gmap string Z) (k : string) :
  fold_left count_line logs m !! k
  = if observed k logs =? 0 then m !! k
    else Some (default 0 (m !! k) + observed k logs).
Proof.
  revert m. induction logs as [|log logs IH]; intros m; [reflexivity|].
  simpl fold_left. rewrite IH, observed_cons, count_line_lookup.
  pose proof (observed_nonneg k logs) as Hc.
  destruct (bool_decide (severity log = Some k)); simpl default.
  - rewrite (proj2 (Z.eqb_neq (1 + observed k logs) 0)) by lia.
    destruct (Z.eqb_spec (observed k logs) 0) as [->|_]; f_equal; lia.
  - rewrite Z.add_0_l. reflexivity.
Qed.

Lemma count_by_level_lookup (logs : list string) (k : string) :
  count_by_level upper logs !! k
  = if observed k logs =? 0 then None else Some (observed k logs).
Proof.
  rewrite count_by_level_fold, count_fold_lookup, lookup_empty.
  now rewrite Z.add_0_l.
Qed.

Lemma observed_buckets (logs : list string) :
  observed "ERROR" logs + observed "WARNING" logs + observed "INFO" logs
  + len (List.filter (fun log => bool_decide (severity log = None)) logs)
  = len logs.
Proof.
  induction logs as [|log logs IH]; [reflexivity|].
  rewrite !observed_cons. unfold len in *. simpl List.filter.
  rewrite severity_priority.
  destruct (contains "ERROR" (upper log));
    [|destruct (contains "WARNING" (upper log));
      [|destruct (contains "INFO" (upper log))]];
    simpl; lia.
Qed.

(** C8. [count_by_level] puts each line in the bucket of the first of
    ERROR, WARNING, INFO found in its upper-cased text, and in no bucket
    when none is found; a bucket is a key of the result only when some line
    fell into it, and no other key exists. *)
Theorem count_by_level_buckets (logs : list string) :
  (forall k, count_by_level upper logs !! k
             = if observed k logs =? 0 then None else Some (observed k logs)) /\
  (forall log, severity log
               = if contains "ERROR" (upper log) then Some "ERROR"
                 else if contains "WARNING" (upper log) then Some "WARNING"
                 else if contains "INFO" (upper log) then Some "INFO"
                 else None) /\
  (forall k, is_Some (count_by_level upper logs !! k) ->
             In k severities /\ exists log, log ∈ logs /\ severity log = Some k) /\
  observed "ERROR" logs + observed "WARNING" logs + observed "INFO" logs
  + len (List.filter (fun log => bool_decide (severity log = None)) logs)
  = len logs.
Proof.
  split; [apply count_by_level_lookup|].
  split; [apply severity_priority|].
  split; [|apply observed_buckets].
  intros k. rewrite count_by_level_lookup.
  destruct (Z.eqb_spec (observed k logs) 0) as [E|Hne]; [intros [c Hc]; discriminate|].
  intros _. unfold Spec.observed, len in Hne.
  destruct (List.filter (fun log => bool_decide (severity log = Some k)) logs)
    as [|log rest] eqn:Hf; [now contradiction Hne|].
  assert (In log (List.filter (fun log => bool_decide (severity log = Some k)) logs))
    as Hin by (rewrite Hf; now left).
  apply List.filter_In in Hin as [Hin Hsev]. apply bool_decide_eq_true in Hsev.
  split; [|exists log; split; [now apply list_elem_of_In|exact Hsev]].
  unfold Spec.severity in Hsev. apply find_some in Hsev. apply Hsev.
Qed.

(** *** [extract_errors] *)

Lemma error_lines (logs : list string) :
  List.filter (fun log => contains "ERROR" (upper log)) logs
  = List.filter (fun log => bool_decide (severity log = Some "ERROR")) logs.
Proof.
  apply List.filter_ext. intros log. rewrite severity_priority.
  destruct (contains "ERROR" (upper log)); [reflexivity|].
  destruct (contains "WARNING" (upper log)); [reflexivity|].
  destruct (contains "INFO" (upper log)); reflexivity.
Qed.

(** C10. The number of lines [extract_errors] returns is the count
    [count_by_level] stores under ["ERROR"], read as [0] when the key is
    absent. *)
Theorem extract_errors_count (logs : list string) :
  len (extract_errors upper strip logs)
  = default 0 (count_by_level upper logs !! "ERROR").
Proof.
  rewrite count_by_level_lookup.
  assert (len (extract_errors upper strip logs) = observed "ERROR" logs) as ->.
  { unfold extract_errors, Spec.observed, len.
    now rewrite length_map, error_lines. }
  destruct (Z.eqb_spec (observed "ERROR" logs) 0) as [->|_]; reflexivity.
Qed.

(** *** [find_pattern] *)

Lemma find_pattern_valid (logs : list string) (pattern : string) (r : regex) :
  re_compile pattern = inr r ->
  find_pattern logs pattern
  = inr (flat_map (fun '(i, log) => hit strip (re_match r) i log) (enumerate logs)).
Proof.
  intros Hr. unfold LogFileAnalyzer.find_pattern.
  rewrite (for_each_append _ (fun '(i, log) => hit strip (re_match r) i log));
    [reflexivity|].
  intros acc [i log]. unfold re_search, hit. rewrite Hr. simpl.
  destruct (re_match r log); [reflexivity|now rewrite app_nil_r].
Qed.

Lemma find_pattern_invalid (logs : list string) (pattern : string) (e : exn) :
  re_compile pattern = inl e ->
  find_pattern logs pattern
  = match logs with [] => inr [] | _ :: _ => inl e end.
Proof.
  intros Hr. unfold LogFileAnalyzer.find_pattern, enumerate.
  destruct logs as [|log logs]; [reflexivity|].
  simpl. unfold re_search. now rewrite Hr.
Qed.

(** C9, as the code has it. When [re] fails to compile the pattern,
    [find_pattern] raises the exception [re] raised ([PatternError] for a
    pattern that is not well formed, another one otherwise) when there is at
    least one line, and returns the empty list when there is none (the
    pattern is compiled by the first search). When the pattern compiles, it
    returns, by increasing line number, exactly the pairs of a 1-based line
    number and the stripped line for the lines the pattern is found in. *)
Theorem find_pattern_outcome (logs : list string) (pattern : string) :
  match re_compile pattern with
  | inl e =>
      find_pattern logs pattern
      = match logs with [] => inr [] | _ :: _ => inl e end
  | inr r =>
      exists matches,
        find_pattern logs pattern = inr matches /\
        StronglySorted (fun a b => fst a < fst b) matches /\
        forall k t, (k, t) ∈ matches <->
          exists (i : nat) log,
            logs !! i = Some log /\ re_match r log = true /\
            k = Z.of_nat i + 1 /\ t = strip log
  end.
Proof.
  destruct (re_compile pattern) as [e|r] eqn:Hr; [now apply find_pattern_invalid|].
  eexists. split; [exact (find_pattern_valid logs pattern r Hr)|]. split.
  - apply (flat_map_enumerate_sorted (hit strip (re_match r)) fst 1 logs 0).
    + intros i log e. unfold hit. destruct (re_match r log); simpl; [|tauto].
      intros [<-|[]]. reflexivity.
    + intros i log. unfold hit. destruct (re_match r log); simpl; lia.
  - intros k t. rewrite list_elem_of_In, in_flat_map. split.
    + intros ([i log] & Hin & He).
      apply enumerate_from_In in Hin as (j & -> & Hj).
      unfold hit in He. destruct (re_match r log) eqn:Hm; simpl in He; [|tauto].
      destruct He as [[= <- <-]|[]]. now exists j, log.
    + intros (j & log & Hj & Hm & -> & ->).
      exists (Z.of_nat j, log). split.
      * apply enumerate_from_In. exists j. split; [lia|exact Hj].
      * unfold hit. rewrite Hm. now left.
Qed.

End Analyzer.

(** C9 as stated fails in two ways. On an empty sequence of lines the
    malformed pattern ["("] is never compiled and the result is the empty
    list. On a sequence with lines, a pattern whose repetition count is too
    large makes [re] raise [OverflowError], which is what [find_pattern]
    raises, not [PatternError]. *)
Lemma find_pattern_other_outcomes :
  (Reference.re_compile "(" = inl PatternError /\
   LogFileAnalyzer.find_pattern Reference.strip string
     Reference.re_compile Reference.re_match [] "(" = inr []) /\
  (Reference.re_compile Samples.huge_repetition = inl OverflowError /\
   LogFileAnalyzer.find_pattern Reference.strip string
     Reference.re_compile Reference.re_match Samples.log_lines Samples.huge_repetition
   = inl OverflowError).
Proof. repeat split; vm_compute; reflexivity. Qed.

End LogFacts.

(** ** TimeSeriesAnalyzer *)

Module TimeSeriesFacts.

Import TimeSeriesAnalyzer Spec PyFacts FloatOrder.

Section Analyzer.

Variable builtin_sum : list float -> float.
Variable mean_of : list float -> float.
Variable stdev_of : list float -> M float.

Local Abbreviation moving_average := (TimeSeriesAnalyzer.moving_average builtin_sum).
Local Abbreviation detect_anomalies := (TimeSeriesAnalyzer.detect_anomalies mean_of stdev_of).
Local Abbreviation calculate_trend := (TimeSeriesAnalyzer.calculate_trend mean_of).

(** *** [moving_average] *)

Lemma window_mean (data : list float) (window i : Z) :
  1 <= window -> 0 <= i -> i + window <= len data ->
  truediv_int (builtin_sum (slice data (Some i) (Some (i + window)))) window
  = mret (arithmetic_mean builtin_sum
            (firstn (Z.to_nat window) (skipn (Z.to_nat i) data))).
Proof.
  intros Hw Hi Hlen. unfold truediv_int, arithmetic_mean.
  rewrite (proj2 (Z.eqb_neq window 0)) by lia.
  rewrite slice_window by lia. do 3 f_equal.
  unfold len in *. rewrite length_firstn, length_skipn. lia.
Qed.

(** C3. A series shorter than the window is returned as it is. Otherwise,
    for a window of at least one point, [moving_average] returns
    [len - window + 1] values, and the value at index [i] is the arithmetic
    mean of the [window] consecutive points that start at index [i]. *)
Theorem moving_average_windows (data : list float) (window : Z) :
  (len data < window -> moving_average data window = inr data) /\
  (1 <= window <= len data ->
   exists out,
     moving_average data window = inr out /\
     len out = len data - window + 1 /\
     forall i : nat, Z.of_nat i < len out ->
       exists w,
         len w = window /\
         (forall j : nat, Z.of_nat j < window -> w !! j = data !! (i + j)%nat) /\
         out !! i = Some (arithmetic_mean builtin_sum w)).
Proof.
  unfold TimeSeriesAnalyzer.moving_average. split.
  - intros H. now rewrite (proj2 (Z.ltb_lt _ _) H).
  - intros [Hw Hlen]. rewrite (proj2 (Z.ltb_ge _ _) Hlen).
    set (g := fun i : Z =>
                arithmetic_mean builtin_sum
                  (firstn (Z.to_nat window) (skipn (Z.to_nat i) data))).
    exists (List.map g (range (len data - window + 1))).
    assert (len (List.map g (range (len data - window + 1))) = len data - window + 1)
      as Hout.
    { unfold len at 1. rewrite length_map. apply len_range. lia. }
    split; [|split; [exact Hout|]].
    + apply comprehension_map. intros i Hi. apply In_range in Hi.
      apply window_mean; lia.
    + intros i Hi. rewrite Hout in Hi.
      exists (firstn (Z.to_nat window) (skipn (Z.to_nat (Z.of_nat i)) data)).
      split; [|split].
      * unfold len in *. rewrite length_firstn, length_skipn. lia.
      * intros j Hj. rewrite lookup_take_lt by lia.
        rewrite lookup_drop. f_equal. lia.
      * rewrite list_lookup_fmap, range_lookup by lia. reflexivity.
Qed.

(** *** [detect_anomalies] *)

Lemma z_score_computed (mean stdev val : float) :
  (if (0 <? stdev)%float
   then q ← truediv (val - mean)%float stdev; mret (abs q)
   else mret 0%float)
  = mret (z_score mean stdev val).
Proof.
  unfold z_score, truediv. destruct (0 <? stdev)%float eqn:E; [|reflexivity].
  rewrite (positive_nonzero _ E). simpl. now rewrite abs_div.
Qed.

Lemma detect_anomalies_flat (data : list float) (threshold stdev : float) :
  2 <= len data ->
  stdev_of data = inr stdev ->
  detect_anomalies data threshold
  = inr (flat_map
           (fun '(i, val) =>
              if (threshold <? z_score (mean_of data) stdev val)%float
              then [i] else [])
           (enumerate data)).
Proof.
  intros Hlen Hsd. unfold TimeSeriesAnalyzer.detect_anomalies.
  rewrite (proj2 (Z.ltb_ge _ _) Hlen).
  unfold statistics_mean, statistics_stdev.
  rewrite (proj2 (Z.ltb_ge (len data) 1)) by lia.
  rewrite (proj2 (Z.ltb_ge _ _) Hlen), Hsd. simpl.
  rewrite (for_each_append _
             (fun '(i, val) =>
                if (threshold <? z_score (mean_of data) stdev val)%float
                then [i] else [])); [reflexivity|].
  intros acc [i val]. rewrite z_score_computed. simpl.
  destruct (threshold <? _)%float; [reflexivity|now rewrite app_nil_r].
Qed.

Lemma detect_anomalies_raises (data : list float) (threshold : float) (e : exn) :
  2 <= len data ->
  stdev_of data = inl e ->
  detect_anomalies data threshold = inl e.
Proof.
  intros Hlen Hsd. unfold TimeSeriesAnalyzer.detect_anomalies.
  rewrite (proj2 (Z.ltb_ge _ _) Hlen).
  unfold statistics_mean, statistics_stdev.
  rewrite (proj2 (Z.ltb_ge (len data) 1)) by lia.
  now rewrite (proj2 (Z.ltb_ge _ _) Hlen), Hsd.
Qed.

Lemma detect_anomalies_short (data : list float) (threshold : float) :
  len data < 2 -> detect_anomalies data threshold = inr [].
Proof.
  intros Hlt. unfold TimeSeriesAnalyzer.detect_anomalies.
  now rewrite (proj2 (Z.ltb_lt _ _) Hlt).
Qed.

(** C6, as the code has it. On fewer than two points [detect_anomalies]
    returns nothing. Otherwise, when [statistics.stdev] raises,
    [detect_anomalies] raises the same exception; when it returns, the
    result is, in increasing order, exactly the indices [i] whose z-score
    exceeds the threshold, where the z-score of a value is
    [|value - mean| / stdev] when the sample standard deviation is positive
    and [0] otherwise, mean and deviation being those of the whole
    series. *)
Theorem detect_anomalies_indices (data : list float) (threshold : float) :
  if len data <? 2 then detect_anomalies data threshold = inr []
  else
    match stdev_of data with
    | inl e => detect_anomalies data threshold = inl e
    | inr stdev =>
        exists anomalies,
          detect_anomalies data threshold = inr anomalies /\
          StronglySorted Z.lt anomalies /\
          forall i, i ∈ anomalies <->
            exists (j : nat) v,
              i = Z.of_nat j /\ data !! j = Some v /\
              (threshold <? z_score (mean_of data) stdev v)%float = true
    end.
Proof.
  destruct (Z.ltb_spec (len data) 2) as [Hlt|Hge];
    [now apply detect_anomalies_short|].
  destruct (stdev_of data) as [e|stdev] eqn:Hsd;
    [now apply detect_anomalies_raises|].
  eexists. split; [exact (detect_anomalies_flat data threshold stdev Hge Hsd)|]. split.
  - apply (flat_map_enumerate_sorted
             (fun i val =>
                if (threshold <? z_score (mean_of data) stdev val)%float
                then [i] else [])
             (fun i => i) 0 data 0).
    + intros i val e. destruct (threshold <? _)%float; simpl; [|tauto].
      intros [<-|[]]. lia.
    + intros i val. destruct (threshold <? _)%float; simpl; lia.
  - intros i. rewrite list_elem_of_In, in_flat_map. split.
    + intros ([k v] & Hin & He).
      apply enumerate_from_In in Hin as (j & -> & Hj).
      destruct (threshold <? _)%float eqn:E; simpl in He; [|tauto].
      destruct He as [<-|[]]. exists j, v. repeat split; trivial.
    + intros (j & v & -> & Hj & E).
      exists (Z.of_nat j, v). split.
      * apply enumerate_from_In. exists j. split; [lia|exact Hj].
      * rewrite E. now left.
Qed.

(** C2, as the code has it. When the sample standard deviation that
    [statistics.stdev] returns is zero and the threshold is not negative,
    [detect_anomalies] reports no index. *)
Theorem detect_anomalies_constant (data : list float) (threshold stdev : float) :
  stdev_of data = inr stdev ->
  (stdev =? 0)%float = true ->
  (threshold <? 0)%float = false ->
  detect_anomalies data threshold = inr [].
Proof.
  intros Hret Hsd Hth. destruct (Z.ltb_spec (len data) 2) as [Hlt|Hge];
    [now apply detect_anomalies_short|].
  rewrite (detect_anomalies_flat data threshold stdev) by assumption. f_equal.
  transitivity (flat_map (fun _ : Z * float => @nil Z) (enumerate data));
    [|apply flat_map_nothing].
  apply flat_map_ext. intros [i v].
  unfold z_score. now rewrite (zero_not_positive _ Hsd), Hth.
Qed.

(** *** [calculate_trend] *)

Lemma percent_change_computed (avg_first avg_second : float) :
  (if (0 <? avg_first)%float
   then q ← truediv (avg_second - avg_first)%float avg_first; mret (q * 100)%float
   else mret 0%float)
  = mret (percent_change avg_first avg_second).
Proof.
  unfold percent_change, truediv. destruct (0 <? avg_first)%float eqn:E; [|reflexivity].
  now rewrite (positive_nonzero _ E).
Qed.

(** C7. On fewer than two points [calculate_trend] answers
    ["insufficient_data"]. Otherwise the series is cut at the index
    [len / 2] (rounded down) into a first and a second half, the percent
    change is [(mean2 - mean1) / mean1 * 100] when the mean of the first half
    is positive and [0] otherwise, in particular when that mean is zero or
    negative, and the answer is ["increasing"] above 5, ["decreasing"]
    below -5 and ["stable"] in between. *)
Theorem calculate_trend_halves (data : list float) :
  if len data <? 2 then calculate_trend data = inr "insufficient_data"
  else
    exists first second,
      data = first ++ second /\
      len first = len data / 2 /\
      len second = len data - len data / 2 /\
      calculate_trend data
      = inr (trend_of (percent_change (mean_of first) (mean_of second))) /\
      ((mean_of first <=? 0)%float = true ->
       percent_change (mean_of first) (mean_of second) = 0%float /\
       calculate_trend data = inr "stable").
Proof.
  unfold TimeSeriesAnalyzer.calculate_trend.
  destruct (Z.ltb_spec (len data) 2) as [Hlt|Hge]; [reflexivity|].
  set (mid := len data / 2).
  assert (1 <= mid <= len data) as Hmid.
  { unfold mid. split.
    - apply Z.div_le_lower_bound; lia.
    - apply Z.div_le_upper_bound; lia. }
  assert (len data - mid >= 1) as Hrest.
  { unfold mid. pose proof (Z.mul_div_le (len data) 2). 
    pose proof (Z.mod_pos_bound (len data) 2).
    pose proof (Z.div_mod (len data) 2). lia. }
  rewrite slice_prefix, slice_suffix by lia.
  rewrite (proj2 (Z.ltb_ge mid 0)) by lia.
  set (first := firstn (Z.to_nat mid) data).
  set (second := skipn (Z.to_nat mid) data).
  assert (len first = mid) as Hfirst.
  { unfold first, len in *. rewrite length_firstn. lia. }
  assert (len second = len data - mid) as Hsecond.
  { unfold second, len in *. rewrite length_skipn. lia. }
  assert (calculate_trend_body :
    (avg_first ← statistics_mean mean_of first;
     avg_second ← statistics_mean mean_of second;
     diff_percent ← (if (0 <? avg_first)%float
                     then q ← truediv (avg_second - avg_first)%float avg_first;
                          mret (q * 100)%float
                     else mret 0%float);
     if (5 <? diff_percent)%float then mret "increasing"
     else if (diff_percent <? -5)%float then mret "decreasing"
     else mret "stable")
    = inr (trend_of (percent_change (mean_of first) (mean_of second)))).
  { unfold statistics_mean.
    rewrite (proj2 (Z.ltb_ge (len first) 1)), (proj2 (Z.ltb_ge (len second) 1)) by lia.
    simpl. rewrite percent_change_computed. simpl. unfold trend_of.
    destruct (5 <? _)%float; [reflexivity|].
    destruct (_ <? -5)%float; reflexivity. }
  exists first, second. split; [symmetry; apply firstn_skipn|].
  split; [exact Hfirst|]. split; [exact Hsecond|]. split; [exact calculate_trend_body|].
  intros Hneg.
  assert (percent_change (mean_of first) (mean_of second) = 0%float) as Hpc.
  { unfold percent_change. now rewrite (leb_zero_not_positive _ Hneg). }
  split; [exact Hpc|]. rewrite calculate_trend_body, Hpc. reflexivity.
Qed.

End Analyzer.

(** The hypotheses and the conclusion of [detect_anomalies_constant] on the
    series [5, 5, 5, 5] with the default threshold. *)
Lemma detect_anomalies_constant_witness :
  Reference.stdev Samples.constant_series = inr 0%float /\
  (0 =? 0)%float = true /\
  (2 <? 0)%float = false /\
  TimeSeriesAnalyzer.detect_anomalies Reference.mean Reference.stdev
    Samples.constant_series 2 = inr [].
Proof.
  assert (Reference.stdev Samples.constant_series = inr 0%float) as H0
    by (vm_compute; reflexivity).
  assert ((0 =? 0)%float = true) as H1 by reflexivity.
  assert ((2 <? 0)%float = false) as H2 by reflexivity.
  split; [exact H0|]. split; [exact H1|]. split; [exact H2|].
  exact (detect_anomalies_constant Reference.mean Reference.stdev
           Samples.constant_series 2 0 H0 H1 H2).
Defined.

(** C2 as stated fails for a negative threshold: on the constant series
    [5, 5, 5, 5], whose standard deviation is zero, the threshold [-1] makes
    every index anomalous. *)
Lemma detect_anomalies_negative_threshold :
  Reference.stdev Samples.constant_series = inr 0%float /\
  TimeSeriesAnalyzer.detect_anomalies Reference.mean Reference.stdev
    Samples.constant_series (-1) = inr [0; 1; 2; 3].
Proof. split; vm_compute; reflexivity. Qed.

(** C6 as stated fails on a series whose standard deviation is beyond the
    floats: on the two finite points [1.5 * 2^1023] and its opposite, with
    the positive threshold [1], [statistics.stdev] raises [OverflowError]
    and so does [detect_anomalies], which returns no list of indices. *)
Lemma detect_anomalies_overflow :
  (0 <? 1)%float = true /\
  2 <= len Samples.huge_series /\
  Reference.stdev Samples.huge_series = inl OverflowError /\
  TimeSeriesAnalyzer.detect_anomalies Reference.mean Reference.stdev
    Samples.huge_series 1 = inl OverflowError.
Proof. repeat split; vm_compute; try reflexivity; discriminate. Qed.

End TimeSeriesFacts.

(** * Further properties *)

(** ** ProductionDataProcessor: how validation and aggregation fit together *)

Module ProductionMore.

Import ProductionDataProcessor Spec Vocabulary PyFacts.

Section Processor.

Variable float_of_str : string -> option float.
Variable mean_of : list float -> float.

Local Abbreviation reports := (Spec.reports float_of_str).
Local Abbreviation parsed_production := (Spec.parsed_production float_of_str).
Local Abbreviation ranked := (Spec.ranked float_of_str).
Local Abbreviation validate_data := (ProductionDataProcessor.validate_data float_of_str).
Local Abbreviation get_top_days := (ProductionDataProcessor.get_top_days float_of_str).
Local Abbreviation calculate_daily_average :=
  (ProductionDataProcessor.calculate_daily_average float_of_str mean_of).

Lemma sorted_reverse_perm {A : Type} (key : A -> float) (l : list A) :
  Permutation (sorted key true l) l.
Proof.
  unfold sorted. rewrite <- Permutation_rev, SortFacts.list_sort_perm.
  symmetry. apply Permutation_rev.
Qed.

Lemma omap_cons {A B : Type} (f : A -> option B) (x : A) (l : list A) :
  omap f (x :: l) = match f x with Some y => y :: omap f l | None => omap f l end.
Proof. reflexivity. Qed.

Lemma ranked_count (data : list (gmap string string)) :
  len (omap ranked data) <= len data.
Proof.
  unfold len.
  assert (length (omap ranked data) <= length data)%nat; [|lia].
  induction data as [|r data IH]; [reflexivity|].
  rewrite omap_cons. destruct (ranked r); simpl length; lia.
Qed.

Lemma sorted_length (data : list (gmap string string)) :
  length (sorted production true (omap ranked data)) = length (omap ranked data).
Proof. apply Permutation_length, sorted_reverse_perm. Qed.

(** X1. [get_top_days] never raises and never returns more entries than asked
    for: with [v] records whose production parses, it returns
    [min n v] entries when [n >= 0] and [max 0 (v + n)] when [n < 0]. *)
Theorem get_top_days_length (data : list (gmap string string)) (n : Z) :
  exists days,
    get_top_days data n = inr days /\
    len days = (if n <? 0 then Z.max 0 (len (omap ranked data) + n)
                else Z.min n (len (omap ranked data))) /\
    len days <= len data.
Proof.
  eexists. split; [apply ProductionFacts.get_top_days_sorted|].
  pose proof (ranked_count data) as Hv. pose proof (len_nonneg data) as Hd.
  unfold len in *. rewrite length_firstn, !sorted_length.
  destruct (Z.ltb_spec n 0); lia.
Qed.

(** X2. Asking for more days only extends the answer: for [0 <= n <= m] the
    top [n] days are the first [n] entries of the top [m] days. *)
Theorem get_top_days_prefix (data : list (gmap string string)) (n m : Z) :
  0 <= n <= m ->
  exists top_n top_m,
    get_top_days data n = inr top_n /\
    get_top_days data m = inr top_m /\
    top_n `prefix_of` top_m.
Proof.
  intros [Hn Hm]. do 2 eexists.
  split; [apply ProductionFacts.get_top_days_sorted|].
  split; [apply ProductionFacts.get_top_days_sorted|].
  rewrite (proj2 (Z.ltb_ge n 0)), (proj2 (Z.ltb_ge m 0)) by lia.
  set (l := sorted production true (omap ranked data)).
  exists (skipn (Z.to_nat n) (firstn (Z.to_nat m) l)).
  rewrite <- (firstn_skipn (Z.to_nat n) (firstn (Z.to_nat m) l)) at 1.
  f_equal. rewrite take_take. f_equal. lia.
Qed.

Lemma In_take {A : Type} (x : A) (n : nat) (l : list A) :
  In x (firstn n l) -> In x l.
Proof.
  intros H. rewrite <- (firstn_skipn n l). apply in_or_app. now left.
Qed.

Lemma ranked_elem_of (data : list (gmap string string)) (d : ranked_day) :
  d ∈ omap ranked data <-> exists r, r ∈ data /\ ranked r = Some d.
Proof. apply list_elem_of_omap. Qed.

(** X3. Whatever [n] is, and whether or not a production is a NaN, every day
    [get_top_days] returns is the day of some record of the input whose
    production parses: its date is the record's (["Unknown"] when missing)
    and its production is the parsed field ([0] when missing). *)
Theorem get_top_days_from_records (data : list (gmap string string)) (n : Z) :
  exists days,
    get_top_days data n = inr days /\
    forall d, d ∈ days ->
      exists r, r ∈ data /\
        parsed_production r = Some (production d) /\
        date d = default "Unknown" (r !! "date").
Proof.
  eexists. split; [apply ProductionFacts.get_top_days_sorted|].
  intros d Hd. apply list_elem_of_In, In_take in Hd.
  apply (Permutation_in _ (sorted_reverse_perm production _)) in Hd.
  apply list_elem_of_In, ranked_elem_of in Hd as (r & Hr & Hd).
  exists r. split; [exact Hr|]. unfold Spec.ranked in Hd.
  destruct (parsed_production r) as [q|]; [|discriminate].
  injection Hd as <-. now split.
Qed.

Lemma invalid_or_ranked (l : list (gmap string string)) (k : Z) :
  len (List.filter is_invalid (flat_map (fun '(i, r) => reports i r) (enumerate_from k l)))
  + len (omap ranked l) = len l.
Proof.
  unfold len.
  assert (length (List.filter is_invalid
                    (flat_map (fun '(i, r) => reports i r) (enumerate_from k l)))
          + length (omap ranked l) = length l)%nat; [|lia].
  revert k. induction l as [|r l IH]; intros k; [reflexivity|].
  simpl enumerate_from. simpl flat_map. rewrite List.filter_app, length_app.
  specialize (IH (k + 1)). rewrite omap_cons.
  unfold Spec.reports at 1, Spec.ranked at 1, Spec.parsed_production.
  destruct (r !! "production") as [s|]; [|simpl length; lia].
  destruct (float_of_str s) as [q|]; [destruct (q <? 0)%float|]; simpl length; lia.
Qed.

(** X4. Every record is either ranked or reported as invalid, never both: the
    number of days [get_top_days] returns when asked for as many days as
    there are records, plus the number of invalid-value errors
    [validate_data] reports, is the number of records. *)
Theorem ranked_plus_invalid (data : list (gmap string string)) :
  exists errors days,
    validate_data data = inr errors /\
    get_top_days data (len data) = inr days /\
    len days + len (List.filter is_invalid errors) = len data.
Proof.
  do 2 eexists. split; [apply ProductionFacts.validate_data_flat|].
  split; [apply ProductionFacts.get_top_days_sorted|].
  pose proof (invalid_or_ranked data 0) as H.
  pose proof (ranked_count data) as Hv. pose proof (len_nonneg data) as Hd.
  unfold enumerate. unfold len in *. rewrite length_firstn, !sorted_length.
  rewrite (proj2 (Z.ltb_ge _ 0)) by lia. lia.
Qed.

(** X5. A production that [validate_data] reports as negative is not dropped
    by the aggregation: it is the production of one of the days
    [get_top_days] returns when asked for as many days as there are
    records. *)
Theorem negative_still_ranked (data : list (gmap string string)) :
  exists errors days,
    validate_data data = inr errors /\
    get_top_days data (len data) = inr days /\
    forall e p, e ∈ errors -> value e = VFloat p ->
      exists d, d ∈ days /\ production d = p.
Proof.
  do 2 eexists. split; [apply ProductionFacts.validate_data_flat|].
  split; [apply ProductionFacts.get_top_days_sorted|].
  intros e p He Hp.
  apply list_elem_of_In, in_flat_map in He as ([i r] & Hin & He).
  apply enumerate_from_In in Hin as (j & _ & Hj).
  apply ProductionFacts.reports_In in He as (s & Hs & _ & He).
  destruct (float_of_str s) as [q|] eqn:Hq.
  - destruct He as (_ & _ & Hv). rewrite Hv in Hp. injection Hp as ->.
    exists (RankedDay (default "Unknown" (r !! "date")) p). split; [|reflexivity].
    pose proof (ranked_count data) as Hv'. pose proof (len_nonneg data) as Hd.
    rewrite (proj2 (Z.ltb_ge _ 0)) by lia.
    rewrite firstn_all2 by (rewrite sorted_length; unfold len in *; lia).
    apply list_elem_of_In.
    apply (Permutation_in _ (Permutation_sym (sorted_reverse_perm production _))).
    apply list_elem_of_In, ranked_elem_of. exists r. split.
    + apply list_elem_of_lookup. now exists j.
    + unfold Spec.ranked, Spec.parsed_production. now rewrite Hs, Hq.
  - destruct He as (_ & Hv). rewrite Hv in Hp. discriminate.
Qed.

Lemma reports_nothing (i : Z) (r : gmap string string) :
  reports i r = [] <->
  forall s, r !! "production" = Some s ->
    exists q, float_of_str s = Some q /\ (q <? 0)%float = false.
Proof.
  unfold Spec.reports. destruct (r !! "production") as [s|].
  - destruct (float_of_str s) as [q|] eqn:Hq; [destruct (q <? 0)%float eqn:E|].
    + split; [discriminate|]. intros H.
      destruct (H s eq_refl) as (q' & Hq' & H'). congruence.
    + split; [|reflexivity]. intros _ s' Hs'. injection Hs' as <-.
      exists q. now rewrite Hq.
    + split; [discriminate|]. intros H.
      destruct (H s eq_refl) as (q' & Hq' & _). congruence.
  - split; [|reflexivity]. intros _ s H. discriminate.
Qed.

(** X6. [validate_data] reports nothing exactly when every production field
    that is present parses to a float that is not below zero. *)
Theorem validate_data_clean (data : list (gmap string string)) :
  validate_data data = inr [] <->
  forall r s, r ∈ data -> r !! "production" = Some s ->
    exists q, float_of_str s = Some q /\ (q <? 0)%float = false.
Proof.
  rewrite ProductionFacts.validate_data_flat. unfold enumerate.
  assert (forall l k,
            flat_map (fun '(i, r) => reports i r) (enumerate_from k l) = [] <->
            forall r, In r l -> reports 0 r = []) as Hflat.
  { induction l as [|r l IH]; intros k; simpl; [tauto|].
    split.
    - intros H. apply app_eq_nil in H as [Hr Hl].
      intros r' [<-|Hin].
      + exact (proj2 (reports_nothing 0 r) (proj1 (reports_nothing k r) Hr)).
      + exact (proj1 (IH (k + 1)) Hl r' Hin).
    - intros H.
      rewrite (proj2 (IH (k + 1))) by (intros r' Hr'; apply H; now right).
      rewrite app_nil_r.
      exact (proj2 (reports_nothing k r)
               (proj1 (reports_nothing 0 r) (H r (or_introl eq_refl)))). }
  split.
  - intros E. injection E as E. intros r s Hr Hs.
    apply list_elem_of_In in Hr.
    exact (proj1 (reports_nothing 0 r) (proj1 (Hflat data 0) E r Hr) s Hs).
  - intros H. f_equal. apply (proj2 (Hflat data 0)). intros r Hr.
    apply (proj2 (reports_nothing 0 r)). intros s Hs. apply (H r s); trivial.
    now apply list_elem_of_In.
Qed.

Lemma reports_shift (i k : Z) (r : gmap string string) :
  reports (i + k) r = List.map (shift_row k) (reports i r).
Proof.
  unfold Spec.reports, shift_row.
  destruct (r !! "production") as [s|]; [|reflexivity].
  destruct (float_of_str s) as [q|]; [destruct (q <? 0)%float|]; simpl;
    try reflexivity; do 2 f_equal; lia.
Qed.

Lemma reports_enumerate_shift (l : list (gmap string string)) (k : Z) :
  flat_map (fun '(i, r) => reports i r) (enumerate_from k l)
  = List.map (shift_row k) (flat_map (fun '(i, r) => reports i r) (enumerate_from 0 l)).
Proof.
  revert k. induction l as [|r l IH]; intros k; [reflexivity|].
  simpl. rewrite List.map_app, (IH (k + 1)), (IH (0 + 1)), List.map_map.
  f_equal.
  - apply (reports_shift 0 k).
  - apply List.map_ext. intros e. unfold shift_row. simpl. f_equal. lia.
Qed.

Lemma enumerate_from_app {A : Type} (l1 l2 : list A) (k : Z) :
  enumerate_from k (l1 ++ l2)
  = enumerate_from k l1 ++ enumerate_from (k + len l1) l2.
Proof.
  unfold len. revert k. induction l1 as [|x l1 IH]; intros k; simpl.
  - now rewrite Z.add_0_r.
  - rewrite IH. do 3 f_equal. lia.
Qed.

(** X7. Validating two batches in one go gives the errors of the first batch
    followed by the errors of the second, whose row numbers are moved by the
    size of the first batch. *)
Theorem validate_data_app (data1 data2 : list (gmap string string)) :
  exists errors1 errors2,
    validate_data data1 = inr errors1 /\
    validate_data data2 = inr errors2 /\
    validate_data (data1 ++ data2)
    = inr (errors1 ++ List.map (shift_row (len data1)) errors2).
Proof.
  do 2 eexists. split; [apply ProductionFacts.validate_data_flat|].
  split; [apply ProductionFacts.validate_data_flat|].
  rewrite ProductionFacts.validate_data_flat. unfold enumerate.
  rewrite enumerate_from_app, flat_map_app. simpl. do 2 f_equal.
  apply reports_enumerate_shift.
Qed.

(** X8. The records whose production does not parse have no influence on the
    average: dropping them from the input gives the same result. *)
Theorem calculate_daily_average_skips (data : list (gmap string string)) :
  calculate_daily_average data
  = calculate_daily_average
      (List.filter (fun r => bool_decide (is_Some (parsed_production r))) data).
Proof.
  unfold ProductionDataProcessor.calculate_daily_average.
  rewrite !ProductionFacts.productions_loop. do 2 f_equal.
  induction data as [|r data IH]; [reflexivity|]. simpl List.filter.
  rewrite omap_cons. destruct (parsed_production r) as [q|] eqn:Hq.
  - rewrite bool_decide_eq_true_2 by (now exists q).
    rewrite omap_cons, Hq. now f_equal.
  - rewrite bool_decide_eq_false_2 by (intros [q Hq']; discriminate). exact IH.
Qed.

End Processor.

(** [get_top_days_prefix] on four rows: the top two are the start of the
    top three. *)
Lemma get_top_days_prefix_witness :
  0 <= 2 <= 3 /\
  exists top_n top_m,
    ProductionDataProcessor.get_top_days Reference.float_of_str Samples.four_days 2
    = inr top_n /\
    ProductionDataProcessor.get_top_days Reference.float_of_str Samples.four_days 3
    = inr top_m /\
    top_n `prefix_of` top_m.
Proof.
  assert (0 <= 2 <= 3) as H by lia.
  split; [exact H|].
  exact (get_top_days_prefix Reference.float_of_str Samples.four_days 2 3 H).
Defined.

End ProductionMore.

(** ** LogFileAnalyzer: counting, searching and the order of the buckets *)

Module LogMore.

Import LogFileAnalyzer ReportGenerator Spec Vocabulary PyFacts.

Section Analyzer.

Variable upper : string -> string.
Variable strip : string -> string.
Variable regex : Type.
Variable re_compile : string -> M regex.
Variable re_match : regex -> string -> bool.

Local Abbreviation severity := (Spec.severity upper).
Local Abbreviation observed := (Spec.observed upper).
Local Abbreviation count_by_level := (LogFileAnalyzer.count_by_level upper).
Local Abbreviation extract_errors := (LogFileAnalyzer.extract_errors upper strip).
Local Abbreviation find_pattern :=
  (LogFileAnalyzer.find_pattern strip regex re_compile re_match).
Local Abbreviation count_by_level_items := (ReportGenerator.count_by_level_items upper).
Local Abbreviation count_line_items := (Vocabulary.count_line_items upper).

Lemma count_default (logs : list string) (k : string) :
  default 0 (count_by_level logs !! k) = observed k logs.
Proof.
  rewrite LogFacts.count_by_level_lookup.
  now destruct (Z.eqb_spec (observed k logs) 0) as [->|_].
Qed.

Lemma observed_app (k : string) (logs1 logs2 : list string) :
  observed k (logs1 ++ logs2) = observed k logs1 + observed k logs2.
Proof.
  unfold Spec.observed, len. rewrite List.filter_app, length_app. lia.
Qed.

(** X9. Counting is additive: the counts of two logs put end to end are the
    counts of each, added bucket by bucket, and a bucket is present as soon
    as one of the two has it. *)
Theorem count_by_level_app (logs1 logs2 : list string) :
  count_by_level (logs1 ++ logs2)
  = add_counts (count_by_level logs1) (count_by_level logs2).
Proof.
  apply map_eq. intros k. unfold add_counts.
  rewrite lookup_union_with, !LogFacts.count_by_level_lookup, observed_app.
  pose proof (LogFacts.observed_nonneg upper k logs1) as H1.
  pose proof (LogFacts.observed_nonneg upper k logs2) as H2.
  destruct (Z.eqb_spec (observed k logs1) 0) as [E1|N1],
           (Z.eqb_spec (observed k logs2) 0) as [E2|N2]; simpl.
  - now rewrite E1, E2.
  - rewrite E1, Z.add_0_l. now rewrite (proj2 (Z.eqb_neq _ 0)) by lia.
  - rewrite E2, Z.add_0_r. now rewrite (proj2 (Z.eqb_neq _ 0)) by lia.
  - now rewrite (proj2 (Z.eqb_neq _ 0)) by lia.
Qed.

(** X10. The counts do not depend on the order of the lines. *)
Theorem count_by_level_permutation (logs1 logs2 : list string) :
  Permutation logs1 logs2 -> count_by_level logs1 = count_by_level logs2.
Proof.
  intros Hperm. apply map_eq. intros k.
  rewrite !LogFacts.count_by_level_lookup.
  assert (observed k logs1 = observed k logs2) as ->; [|reflexivity].
  unfold Spec.observed, len. f_equal. apply Permutation_length.
  induction Hperm as [|x l l' _ IH|x y l|l l' l'' _ IH1 _ IH2]; simpl.
  - reflexivity.
  - destruct (bool_decide _); [now constructor|exact IH].
  - destruct (bool_decide (severity y = Some k)), (bool_decide (severity x = Some k));
      try reflexivity. apply perm_swap.
  - now transitivity (List.filter (fun log => bool_decide (severity log = Some k)) l').
Qed.

(** X11. When the pattern ["error"], searched without regard to case, is found
    in exactly the lines whose upper-cased text contains ["ERROR"], the
    lines [find_pattern] returns for it are the lines [extract_errors]
    returns, in the same order. *)
Theorem find_pattern_error_lines (logs : list string) (r : regex) :
  re_compile "error" = inr r ->
  (forall s, re_match r s = contains "ERROR" (upper s)) ->
  exists matches,
    find_pattern logs "error" = inr matches /\
    List.map snd matches = extract_errors logs.
Proof.
  intros Hr Hmatch. eexists.
  split; [exact (LogFacts.find_pattern_valid strip regex re_compile re_match logs _ r Hr)|].
  unfold LogFileAnalyzer.extract_errors, enumerate. generalize 0.
  induction logs as [|log logs IH]; intros k; [reflexivity|].
  simpl. rewrite List.map_app, IH. unfold hit. rewrite Hmatch.
  destruct (contains "ERROR" (upper log)); reflexivity.
Qed.

(** *** The dict in insertion order *)

Lemma count_by_level_items_fold (logs : list string) :
  count_by_level_items logs = fold_left count_line_items logs [].
Proof.
  unfold ReportGenerator.count_by_level_items. generalize (@nil (string * Z)).
  induction logs as [|log logs IH]; intros acc; simpl; [reflexivity|].
  rewrite IH. f_equal. unfold Vocabulary.count_line_items.
  rewrite LogFacts.severity_priority.
  destruct (contains "ERROR" (upper log)); [reflexivity|].
  destruct (contains "WARNING" (upper log)); [reflexivity|].
  destruct (contains "INFO" (upper log)); reflexivity.
Qed.

Lemma increment_items_map (acc : list (string * Z)) (k : string) :
  (list_to_map (increment_items acc k) : gmap string Z)
  = increment (list_to_map acc) k.
Proof.
  unfold increment. induction acc as [|[k' c] acc IH]; simpl.
  - now rewrite lookup_empty.
  - destruct (String.eqb_spec k' k) as [->|Hne]; simpl.
    + now rewrite lookup_insert_eq, insert_insert_eq.
    + rewrite IH, lookup_insert_ne by exact Hne. now apply insert_insert_ne.
Qed.

Lemma count_line_items_map (acc : list (string * Z)) (log : string) :
  (list_to_map (count_line_items acc log) : gmap string Z)
  = Spec.count_line upper (list_to_map acc) log.
Proof.
  unfold Vocabulary.count_line_items, Spec.count_line.
  destruct (severity log); [apply increment_items_map|reflexivity].
Qed.

Lemma items_map (logs : list string) :
  (list_to_map (count_by_level_items logs) : gmap string Z) = count_by_level logs.
Proof.
  rewrite count_by_level_items_fold, LogFacts.count_by_level_fold.
  change (∅ : gmap string Z) with (list_to_map (@nil (string * Z)) : gmap string Z).
  generalize (@nil (string * Z)).
  induction logs as [|log logs IH]; intros acc; simpl; [reflexivity|].
  now rewrite IH, count_line_items_map.
Qed.

Lemma increment_items_keys (acc : list (string * Z)) (k : string) :
  List.map fst (increment_items acc k)
  = if fresh (List.map fst acc) k then List.map fst acc ++ [k] else List.map fst acc.
Proof.
  unfold fresh. induction acc as [|[k' c] acc IH]; simpl; [reflexivity|].
  rewrite (String.eqb_sym k k').
  destruct (String.eqb k' k); simpl; [reflexivity|].
  rewrite IH. now destruct (existsb (String.eqb k) (List.map fst acc)).
Qed.

Lemma filter_twice {A : Type} (f g : A -> bool) (l : list A) :
  List.filter f (List.filter g l) = List.filter (fun x => g x && f x) l.
Proof.
  induction l as [|x l IH]; simpl; [reflexivity|].
  destruct (g x); simpl; [destruct (f x)|]; now rewrite IH.
Qed.

Lemma fresh_snoc (keys : list string) (k y : string) :
  fresh (keys ++ [k]) y = negb (String.eqb y k) && fresh keys y.
Proof.
  unfold fresh. rewrite existsb_app. simpl. rewrite orb_false_r.
  destruct (existsb (String.eqb y) keys), (String.eqb y k); reflexivity.
Qed.

Lemma fresh_known (keys : list string) (k y : string) :
  fresh keys k = false -> negb (String.eqb y k) && fresh keys y = fresh keys y.
Proof.
  intros Hk. destruct (String.eqb_spec y k) as [->|_]; simpl; [|reflexivity].
  now rewrite Hk.
Qed.

Lemma filter_fresh_nil (l : list string) : List.filter (fresh []) l = l.
Proof. induction l as [|x l IH]; simpl; [reflexivity|now rewrite IH]. Qed.

(** The keys after the loop: those the dict started with, then the
    severities met that were not yet keys, each once, in the order of their
    first line. *)
Lemma items_keys_from (logs : list string) (acc : list (string * Z)) :
  List.map fst (fold_left count_line_items logs acc)
  = List.map fst acc
    ++ List.filter (fresh (List.map fst acc)) (distinct (omap severity logs)).
Proof.
  revert acc. induction logs as [|log logs IH]; intros acc.
  - simpl. now rewrite app_nil_r.
  - simpl fold_left. rewrite IH. unfold Vocabulary.count_line_items.
    rewrite ProductionMore.omap_cons.
    destruct (severity log) as [k|]; [|reflexivity].
    rewrite increment_items_keys. simpl distinct. simpl List.filter.
    destruct (fresh (List.map fst acc) k) eqn:Hk.
    + rewrite <- app_assoc. simpl. do 2 f_equal.
      rewrite filter_twice. apply List.filter_ext. intros y. apply fresh_snoc.
    + f_equal. rewrite filter_twice. symmetry.
      apply List.filter_ext. intros y. now apply fresh_known.
Qed.

Lemma distinct_subset (l : list string) (x : string) : In x (distinct l) -> In x l.
Proof.
  revert x. induction l as [|y l IH]; intros x; simpl; [tauto|].
  intros [->|H]; [now left|]. apply List.filter_In in H as [H _]. right. now apply IH.
Qed.

Lemma distinct_NoDup (l : list string) : NoDup (distinct l).
Proof.
  induction l as [|x l IH]; simpl; [constructor|].
  apply NoDup_cons. split.
  - rewrite list_elem_of_In, List.filter_In. intros [_ H].
    now rewrite String.eqb_refl in H.
  - apply NoDup_ListNoDup, List.NoDup_filter, NoDup_ListNoDup, IH.
Qed.

(** X12. The dict [count_by_level] builds lists its buckets in the order in which
    the severities are first met in the log, each once, and holds for each
    the count that [count_by_level] returns. *)
Theorem count_by_level_items_order (logs : list string) :
  List.map fst (count_by_level_items logs) = distinct (omap severity logs) /\
  NoDup (List.map fst (count_by_level_items logs)) /\
  forall k c, (k, c) ∈ count_by_level_items logs <-> count_by_level logs !! k = Some c.
Proof.
  assert (List.map fst (count_by_level_items logs) = distinct (omap severity logs))
    as Hkeys.
  { rewrite count_by_level_items_fold, items_keys_from. simpl.
    apply filter_fresh_nil. }
  assert (NoDup (List.map fst (count_by_level_items logs))) as Hnodup.
  { rewrite Hkeys. apply distinct_NoDup. }
  split; [exact Hkeys|]. split; [exact Hnodup|].
  intros k c. rewrite <- items_map. now apply elem_of_list_to_map.
Qed.

End Analyzer.

(** [count_by_level_permutation] on four lines and a rearrangement of
    them. *)
Lemma count_by_level_permutation_witness :
  Permutation Samples.log_lines Samples.shuffled_log_lines /\
  LogFileAnalyzer.count_by_level Reference.upper Samples.log_lines
  = LogFileAnalyzer.count_by_level Reference.upper Samples.shuffled_log_lines.
Proof.
  assert (Permutation Samples.log_lines Samples.shuffled_log_lines) as H.
  { unfold Samples.log_lines, Samples.shuffled_log_lines.
    apply (Permutation_cons_app [_] _ _). simpl.
    apply (Permutation_cons_app [_; _] _ _). simpl.
    apply (Permutation_cons_app [_] _ _). simpl.
    reflexivity. }
  split; [exact H|].
  exact (count_by_level_permutation Reference.upper _ _ H).
Defined.

(** [find_pattern_error_lines] with the literal patterns of [Reference]. *)
Lemma find_pattern_error_lines_witness :
  Reference.re_compile "error" = inr "ERROR" /\
  (forall s, Reference.re_match "ERROR" s = contains "ERROR" (Reference.upper s)) /\
  exists matches,
    LogFileAnalyzer.find_pattern Reference.strip string
      Reference.re_compile Reference.re_match Samples.log_lines "error"
    = inr matches /\
    List.map snd matches
    = LogFileAnalyzer.extract_errors Reference.upper Reference.strip Samples.log_lines.
Proof.
  assert (Reference.re_compile "error" = inr "ERROR") as H1 by reflexivity.
  assert (forall s, Reference.re_match "ERROR" s = contains "ERROR" (Reference.upper s))
    as H2 by (intros s; reflexivity).
  split; [exact H1|]. split; [exact H2|].
  exact (find_pattern_error_lines Reference.upper Reference.strip string
           Reference.re_compile Reference.re_match Samples.log_lines "ERROR" H1 H2).
Defined.

End LogMore.

(** ** TimeSeriesAnalyzer: windows that are not positive, and the threshold *)

Module TimeSeriesMore.

Import TimeSeriesAnalyzer Spec PyFacts FloatOrder.



Lemma enumerate_from_indices {A : Type} (l : list A) (k : Z) :
  List.map fst (enumerate_from k l)
  = List.map (fun j => k + Z.of_nat j) (seq 0 (length l)).
Proof.
  revert k. induction l as [|x l IH]; intros k; [reflexivity|].
  simpl. f_equal; [lia|]. rewrite IH, <- seq_shift, List.map_map.
  apply List.map_ext. intros j. lia.
Qed.

Lemma enumerate_indices {A : Type} (l : list A) :
  List.map fst (enumerate l) = range (len l).
Proof.
  unfold enumerate, range, len. rewrite enumerate_from_indices, Nat2Z.id.
  apply List.map_ext. intros j. lia.
Qed.

Lemma flat_map_singleton {A B : Type} (f : A -> B) (l : list A) :
  flat_map (fun x => [f x]) l = List.map f l.
Proof. induction l as [|x l IH]; simpl; [reflexivity|now rewrite IH]. Qed.

Section Analyzer.

Variable builtin_sum : list float -> float.
Variable mean_of : list float -> float.
Variable stdev_of : list float -> M float.

Local Abbreviation moving_average := (TimeSeriesAnalyzer.moving_average builtin_sum).
Local Abbreviation detect_anomalies := (TimeSeriesAnalyzer.detect_anomalies mean_of stdev_of).

(** X13. A window of size zero makes [moving_average] raise
    [ZeroDivisionError], whatever the series, the empty one included. *)
Theorem moving_average_zero_window (data : list float) :
  moving_average data 0 = inl ZeroDivisionError.
Proof.
  unfold TimeSeriesAnalyzer.moving_average.
  pose proof (len_nonneg data) as Hlen.
  rewrite (proj2 (Z.ltb_ge (len data) 0)) by lia.
  unfold range, len. rewrite Z.sub_0_r.
  replace (Z.to_nat (Z.of_nat (length data) + 1)) with (S (length data)) by lia.
  reflexivity.
Qed.

(** X14. A negative window raises nothing: [moving_average] then returns
    [len - window + 1] values, more than the series has points, and every
    value from index [len] on is the sum of an empty slice divided by the
    window. *)
Theorem moving_average_negative_window (data : list float) (window : Z) :
  window < 0 ->
  exists out,
    moving_average data window = inr out /\
    len out = len data - window + 1 /\
    forall i : nat, len data <= Z.of_nat i < len out ->
      out !! i = Some (builtin_sum [] / float_of_int window)%float.
Proof.
  intros Hw. unfold TimeSeriesAnalyzer.moving_average.
  pose proof (len_nonneg data) as Hlen.
  rewrite (proj2 (Z.ltb_ge (len data) window)) by lia.
  set (g := fun i : Z =>
              PrimFloat.div (builtin_sum (slice data (Some i) (Some (i + window))))
                            (float_of_int window)).
  exists (List.map g (range (len data - window + 1))).
  assert (len (List.map g (range (len data - window + 1))) = len data - window + 1)
    as Hout.
  { unfold len at 1. rewrite length_map. apply len_range. lia. }
  split; [|split; [exact Hout|]].
  - apply comprehension_map. intros i _. unfold truediv_int.
    now rewrite (proj2 (Z.eqb_neq window 0)) by lia.
  - intros i Hi. rewrite Hout in Hi.
    rewrite list_lookup_fmap, range_lookup by lia. simpl. unfold g.
    do 3 f_equal. unfold slice, clamp_index.
    rewrite (proj2 (Z.ltb_ge (Z.of_nat i) 0)) by lia.
    rewrite (Z.min_r (Z.of_nat i)) by lia.
    rewrite skipn_all2 by (unfold len; lia). apply firstn_nil.
Qed.



(** X16. On a series of two or more points for which [statistics.stdev]
    returns a deviation that is not positive, a negative threshold makes
    [detect_anomalies] report every index of the series. *)
Theorem detect_anomalies_all (data : list float) (threshold stdev : float) :
  2 <= len data ->
  stdev_of data = inr stdev ->
  (0 <? stdev)%float = false ->
  (threshold <? 0)%float = true ->
  detect_anomalies data threshold = inr (range (len data)).
Proof.
  intros Hlen Hret Hsd Hth.
  rewrite (TimeSeriesFacts.detect_anomalies_flat _ _ _ _ stdev Hlen Hret). f_equal.
  rewrite <- enumerate_indices, <- flat_map_singleton.
  apply flat_map_ext. intros [i v]. unfold z_score. now rewrite Hsd, Hth.
Qed.

End Analyzer.

(** [moving_average_negative_window] on three points with the window
    [-2]. *)
Lemma moving_average_negative_window_witness :
  -2 < 0 /\
  exists out,
    TimeSeriesAnalyzer.moving_average Reference.builtin_sum Samples.short_series (-2)
    = inr out /\
    len out = len Samples.short_series - (-2) + 1 /\
    forall i : nat, len Samples.short_series <= Z.of_nat i < len out ->
      out !! i = Some (Reference.builtin_sum [] / float_of_int (-2))%float.
Proof.
  assert (-2 < 0) as H by lia.
  split; [exact H|].
  exact (moving_average_negative_window Reference.builtin_sum Samples.short_series (-2) H).
Defined.


(** [detect_anomalies_all] on the constant series with the threshold
    [-1]. *)
Lemma detect_anomalies_all_witness :
  2 <= len Samples.constant_series /\
  Reference.stdev Samples.constant_series = inr 0%float /\
  (0 <? 0)%float = false /\
  (-1 <? 0)%float = true /\
  TimeSeriesAnalyzer.detect_anomalies Reference.mean Reference.stdev
    Samples.constant_series (-1) = inr (range (len Samples.constant_series)).
Proof.
  assert (2 <= len Samples.constant_series) as H1 by (vm_compute; discriminate).
  assert (Reference.stdev Samples.constant_series = inr 0%float) as H0
    by (vm_compute; reflexivity).
  assert ((0 <? 0)%float = false) as H2 by reflexivity.
  assert ((-1 <? 0)%float = true) as H3 by reflexivity.
  split; [exact H1|]. split; [exact H0|]. split; [exact H2|]. split; [exact H3|].
  exact (detect_anomalies_all Reference.mean Reference.stdev
           Samples.constant_series (-1) 0 H1 H0 H2 H3).
Defined.

End TimeSeriesMore.

(** ** ReportGenerator *)

Module ReportFacts.

Import ProductionDataProcessor LogFileAnalyzer ReportGenerator Spec Vocabulary PyFacts.

Lemma fold_left_append {A B : Type} (step : list B -> A -> list B) (f : A -> B)
    (l : list A) (acc : list B) :
  (forall acc x, step acc x = acc ++ [f x]) ->
  fold_left step l acc = acc ++ List.map f l.
Proof.
  intros Hstep. revert acc. induction l as [|x l IH]; intros acc; simpl.
  - now rewrite app_nil_r.
  - now rewrite IH, Hstep, <- app_assoc.
Qed.

Lemma slice_last_five {A : Type} (l : list A) :
  slice l (Some (-5)) None = skipn (length l - 5) l.
Proof.
  unfold slice, clamp_index, len.
  change (-5 <? 0) with true. cbv iota.
  replace (Z.to_nat (Z.max (-5 + Z.of_nat (length l)) 0)) with (length l - 5)%nat by lia.
  apply firstn_all2. rewrite length_skipn. lia.
Qed.

Section Reports.

Variable float_of_str : string -> option float.
Variable mean_of : list float -> float.
Variable upper : string -> string.
Variable strip : string -> string.
Variable format_2f : float -> string.
Variable now : string.

Local Abbreviation generate_production_report :=
  (ReportGenerator.generate_production_report float_of_str mean_of format_2f now).
Local Abbreviation generate_log_report :=
  (ReportGenerator.generate_log_report upper strip now).
Local Abbreviation count_by_level_items := (ReportGenerator.count_by_level_items upper).
Local Abbreviation extract_errors := (LogFileAnalyzer.extract_errors upper strip).

Lemma calculate_daily_average_returns (data : list (gmap string string)) :
  exists avg, calculate_daily_average float_of_str mean_of data = inr avg.
Proof.
  unfold calculate_daily_average. rewrite ProductionFacts.productions_loop. simpl.
  destruct (omap (parsed_production float_of_str) data) as [|q l]; [now eexists|].
  unfold statistics_mean, len.
  rewrite (proj2 (Z.ltb_ge _ 1)) by (simpl length; lia). now eexists.
Qed.

(** X17. [generate_production_report] never raises. Its text is made, line by
    line, of the heading, the average [calculate_daily_average] returns,
    one numbered line for each of the at most five days [get_top_days]
    returns for [n = 5], the number of all the errors [validate_data]
    reports, one line for each of the first five of them, and a closing
    rule. *)
Theorem generate_production_report_lines (data : list (gmap string string)) :
  exists avg top errors,
    calculate_daily_average float_of_str mean_of data = inr avg /\
    get_top_days float_of_str data 5 = inr top /\
    validate_data float_of_str data = inr errors /\
    len top <= 5 /\
    generate_production_report data
    = inr (String.concat newline
             ([ str_mul "=" 60;
                "PRODUCTION DATA ANALYSIS REPORT";
                str_mul "=" 60;
                ("Generated: " ++ now)%string;
                "";
                ("Average Daily Production: " ++ format_2f avg ++ " barrels"
                 ++ newline)%string;
                "Top 5 Production Days:";
                str_mul "-" 40 ]
              ++ List.map (day_line format_2f) (enumerate_from 1 top)
              ++ [ (newline ++ "Data Quality: " ++ str_of_int (len errors)
                    ++ " errors found")%string ]
              ++ List.map row_line (firstn 5 errors)
              ++ [ str_mul "=" 60 ])).
Proof.
  destruct (calculate_daily_average_returns data) as [avg Havg].
  pose proof (ProductionFacts.get_top_days_sorted float_of_str data 5) as Htop.
  change (5 <? 0) with false in Htop. cbv iota in Htop.
  set (top := firstn (Z.to_nat 5)
                (sorted production true (omap (ranked float_of_str) data))) in Htop.
  exists avg, top,
    (flat_map (fun '(i, r) => reports float_of_str i r) (enumerate data)).
  split; [exact Havg|]. split; [exact Htop|].
  split; [apply ProductionFacts.validate_data_flat|].
  split; [unfold top, len; rewrite length_firstn; lia|].
  unfold ReportGenerator.generate_production_report.
  rewrite Havg. simpl mbind. rewrite Htop. simpl mbind.
  rewrite ProductionFacts.validate_data_flat. simpl mbind.
  rewrite slice_prefix. simpl (5 <? 0).
  rewrite (fold_left_append _ (day_line format_2f))
    by (intros acc [i day]; reflexivity).
  rewrite (fold_left_append _ row_line) by (intros acc err; reflexivity).
  unfold mret, M_ret. f_equal. f_equal.
  rewrite <- !app_assoc. reflexivity.
Qed.

(** X18. The text of [generate_log_report] is made, line by line, of the
    heading, one line for each bucket of [count_by_level] in the order in
    which the dict holds them, a total that is the ["ERROR"] count of
    [count_by_level] ([0] when the bucket is absent), one line for each of
    the last five messages of [extract_errors], at most five lines, each cut
    after 80 characters and always followed by three dots, and a closing
    rule. *)
Theorem generate_log_report_lines (logs : list string) :
  let errors := extract_errors logs in
  let shown := skipn (length errors - 5) errors in
  (length shown <= 5)%nat /\
  generate_log_report logs
  = String.concat newline
      ([ str_mul "=" 60;
         "SYSTEM LOG ANALYSIS REPORT";
         str_mul "=" 60;
         ("Generated: " ++ now)%string;
         "";
         "Log Summary:" ]
       ++ List.map summary_line (count_by_level_items logs)
       ++ [ (newline ++ "Total Errors: "
             ++ str_of_int (default 0 (count_by_level upper logs !! "ERROR")))%string ]
       ++ List.map error_line shown
       ++ [ str_mul "=" 60 ]).
Proof.
  intros errors shown. split.
  { unfold shown. rewrite length_skipn. lia. }
  unfold ReportGenerator.generate_log_report.
  rewrite slice_last_five. fold errors. fold shown.
  rewrite (fold_left_append _ summary_line) by (intros acc [level count]; reflexivity).
  rewrite (fold_left_append _ error_line) by (intros acc err; reflexivity).
  assert (len errors = default 0 (count_by_level upper logs !! "ERROR")) as ->.
  { rewrite LogMore.count_default. unfold errors, LogFileAnalyzer.extract_errors.
    unfold Spec.observed, len. now rewrite length_map, LogFacts.error_lines. }
  f_equal. rewrite <- !app_assoc. reflexivity.
Qed.

End Reports.

End ReportFacts.

(** ** The worked examples of the specification, run on the model *)

Module Examples.

Import ProductionDataProcessor.

Example validator_example :
  validate_data Reference.float_of_str Samples.validator_rows
  = inr [ ValidationError 1 "Negative production value" (VFloat (-5));
          ValidationError 2 "Invalid production value" (VStr "abc") ].
Proof. vm_compute. reflexivity. Qed.

Example top_days_example :
  get_top_days Reference.float_of_str Samples.three_days 2
  = inr [ RankedDay "Unknown" 30; RankedDay "Unknown" 20 ]
  /\ get_top_days Reference.float_of_str Samples.three_days 0 = inr [].
Proof. split; vm_compute; reflexivity. Qed.

Example average_example :
  calculate_daily_average Reference.float_of_str Reference.mean [] = inr 0%float
  /\ calculate_daily_average Reference.float_of_str Reference.mean
       [ {[ "production" := "abc" ]}; {[ "production" := "n/a" ]} ] = inr 0%float
  /\ calculate_daily_average Reference.float_of_str Reference.mean
       [ {[ "production" := "3" ]}; ∅ ] = inr 1.5%float.
Proof. repeat split; vm_compute; reflexivity. Qed.

Example moving_average_example :
  TimeSeriesAnalyzer.moving_average Reference.builtin_sum [1; 2; 3; 4; 5]%float 3
  = inr [2; 3; 4]%float
  /\ TimeSeriesAnalyzer.moving_average Reference.builtin_sum [1; 2]%float 7
     = inr [1; 2]%float
  /\ TimeSeriesAnalyzer.moving_average Reference.builtin_sum [1; 2]%float 0
     = inl ZeroDivisionError.
Proof. repeat split; vm_compute; reflexivity. Qed.

Example anomalies_example :
  TimeSeriesAnalyzer.detect_anomalies Reference.mean Reference.stdev
    Samples.spiked_series 2 = inr [3]
  /\ TimeSeriesAnalyzer.detect_anomalies Reference.mean Reference.stdev
       Samples.constant_series 2 = inr [].
Proof. split; vm_compute; reflexivity. Qed.

Example trend_example :
  TimeSeriesAnalyzer.calculate_trend Reference.mean [100; 110; 120; 130; 140]%float
  = inr "increasing"
  /\ TimeSeriesAnalyzer.calculate_trend Reference.mean [100; 102; 101; 103; 102]%float
     = inr "stable"
  /\ TimeSeriesAnalyzer.calculate_trend Reference.mean [100]%float
     = inr "insufficient_data".
Proof. repeat split; vm_compute; reflexivity. Qed.

Example log_example :
  LogFileAnalyzer.count_by_level Reference.upper Samples.log_lines
  = {[ "ERROR" := 2; "WARNING" := 1; "INFO" := 1 ]}
  /\ LogFileAnalyzer.extract_errors Reference.upper Reference.strip Samples.log_lines
     = [ "10:05 ERROR db down"; "10:15 error sensor" ]
  /\ LogFileAnalyzer.find_pattern Reference.strip string
       Reference.re_compile Reference.re_match Samples.log_lines "error"
     = inr [ (2, "10:05 ERROR db down"); (4, "10:15 error sensor") ]
  /\ LogFileAnalyzer.find_pattern Reference.strip string
       Reference.re_compile Reference.re_match Samples.log_lines "("
     = inl PatternError
  /\ LogFileAnalyzer.find_pattern Reference.strip string
       Reference.re_compile Reference.re_match [ "xaaa{2" ] "a{3}"
     = inr [ (1, "xaaa{2") ].
Proof. repeat split; vm_compute; reflexivity. Qed.

End Examples.
